(** * trackthis: batch parcel tracking for UPS and USPS

    A shallow embedding of [trackthis.py] (classes [UPS] and [USPS]) and the
    properties of its request chunking, batch fetching and response
    normalisation.

    Conventions of the embedding:
    - decoded carrier documents (the output of [resp.json()] and of
      [json.loads (json.dumps (xmltodict.parse ...))]) are values of [json];
      a Python [dict] is an association list read by its first binding;
    - a Python exception is [Raise e] in the [result] monad; a bare
      [except:] is a match on [Raise _];
    - [print] is modelled by returning the list of emitted diagnostics;
    - the network ([session.get]) is a function from a request to the outcome
      of awaiting it, a variable of the enclosing section;
    - text is ASCII: [str.upper] and the case-insensitive matching of
      [strptime] act on the letters a-z only. *)

From Stdlib Require Import ZArith Ascii String List Floats Uint63.
From stdpp Require Import gmap strings list fin_maps.

Local Open Scope Z_scope.
Local Set Warnings "-register-all,-abstract-large-number,-inexact-float".

(** ** Exceptions and the result monad *)

Inductive exn : Type :=
  | AttributeError
  | KeyError
  | TypeError
  | ValueError
  | IndexError
  | UnboundLocalError
  | ZeroDivisionError
  | TransportError.

Inductive result (A : Type) : Type :=
  | Ok (a : A)
  | Raise (e : exn).
Arguments Ok {A} a.
Arguments Raise {A} e.

#[global] Instance result_ret : MRet result := fun A a => Ok a.
#[global] Instance result_bind : MBind result := fun A B f m =>
  match m with
  | Ok a => f a
  | Raise e => Raise e
  end.

Definition is_Ok {A} (r : result A) : Prop := ∃ a, r = Ok a.
Definition raises {A} (r : result A) : Prop := ∃ e, r = Raise e.

(** [try: v = body  except: v = fallback] *)
Definition try_except {A} (body : result A) (fallback : A) : A :=
  match body with
  | Ok a => a
  | Raise _ => fallback
  end.

(** ** Decoded documents *)

Inductive json : Type :=
  | JNull
  | JBool (b : bool)
  | JNum (n : Z)
  | JStr (s : string)
  | JList (l : list json)
  | JDict (d : list (string * json)).

Fixpoint assoc (k : string) (d : list (string * json)) : option json :=
  match d with
  | [] => None
  | (k', v) :: d' => if String.eqb k k' then Some v else assoc k d'
  end.

(** [x.get(k, default)]: only a dict has the method. *)
Definition py_get_default (x : json) (k : string) (default : json) : result json :=
  match x with
  | JDict d => Ok (match assoc k d with Some v => v | None => default end)
  | _ => Raise AttributeError
  end.

(** [x.get(k)] *)
Definition py_get (x : json) (k : string) : result json :=
  py_get_default x k JNull.

(** [x[k]] for a string key [k]. *)
Definition py_getitem (x : json) (k : string) : result json :=
  match x with
  | JDict d => match assoc k d with Some v => Ok v | None => Raise KeyError end
  | _ => Raise TypeError
  end.

(** [type(x) == list] *)
Definition is_list (x : json) : bool :=
  match x with JList _ => true | _ => false end.

(** [x[0]] where [x] is a list. *)
Definition py_first (x : json) : result json :=
  match x with
  | JList (a :: _) => Ok a
  | JList [] => Raise IndexError
  | _ => Raise TypeError
  end.

(** [a + b] *)
Definition py_add (a b : json) : result json :=
  match a, b with
  | JStr s, JStr t => Ok (JStr (s +:+ t))
  | JList s, JList t => Ok (JList (s ++ t))
  | JNum m, JNum n => Ok (JNum (m + n))
  | JNum m, JBool n => Ok (JNum (m + Z.b2z n))
  | JBool m, JNum n => Ok (JNum (Z.b2z m + n))
  | JBool m, JBool n => Ok (JNum (Z.b2z m + Z.b2z n))
  | _, _ => Raise TypeError
  end.

Definition upper_ascii (c : ascii) : ascii :=
  let n := nat_of_ascii c in
  if ((97 <=? n) && (n <=? 122))%nat then ascii_of_nat (n - 32) else c.

Definition lower_ascii (c : ascii) : ascii :=
  let n := nat_of_ascii c in
  if ((65 <=? n) && (n <=? 90))%nat then ascii_of_nat (n + 32) else c.

Fixpoint map_string (f : ascii → ascii) (s : string) : string :=
  match s with
  | EmptyString => EmptyString
  | String c s' => String (f c) (map_string f s')
  end.

(** [s.upper()] and [s.lower()] on a [str]. *)
Definition upper (s : string) : string := map_string upper_ascii s.
Definition lower (s : string) : string := map_string lower_ascii s.

(** [x.upper()]: only a [str] has the method. *)
Definition py_upper (x : json) : result string :=
  match x with
  | JStr s => Ok (upper s)
  | _ => Raise AttributeError
  end.

(** [sep.join(items)]: every item must be a [str]. *)
Fixpoint join (sep : string) (items : list json) : result string :=
  match items with
  | [] => Ok ""
  | [JStr s] => Ok s
  | JStr s :: rest => t ← join sep rest; Ok (s +:+ sep +:+ t)
  | _ :: _ => Raise TypeError
  end.

(** ** Chunking: [chunk_list] (identical in both classes) *)

Section Chunking.
Context {A : Type}.

(** The indices of [range(start, stop, step)] for a positive [step];
    [fuel] bounds the number of iterations. *)
Fixpoint range_from (fuel start stop step : nat) : list nat :=
  match fuel with
  | O => []
  | S fuel' =>
      if (start <? stop)%nat
      then start :: range_from fuel' (start + step) stop step
      else []
  end.

(** [range(0, stop, step)]: a zero step is a [ValueError], a negative step
    gives the empty range. *)
Definition py_range0 (stop : nat) (step : Z) : result (list nat) :=
  if step =? 0 then Raise ValueError
  else if step <? 0 then Ok []
  else Ok (range_from stop 0 stop (Z.to_nat step)).

(** [l[i:j]] for indices [0 <= i], [0 <= j]. *)
Definition slice (l : list A) (i j : nat) : list A :=
  take (j - i) (drop i l).

Definition chunk_list (chunk_size : Z) (whole_list : list A)
  : result (list (list A)) :=
  idx ← py_range0 (length whole_list) chunk_size;
  Ok (map (fun i => slice whole_list i (i + Z.to_nat chunk_size)) idx).
End Chunking.

(** ** [datetime.strptime]

    CPython's [_strptime] turns the format into a regular expression (a named
    group per directive, a run of white space into [\s+], matching ignoring
    case), takes the first match of the backtracking matcher at the start of
    the text, rejects text with unconverted data left, converts the groups and
    builds the [datetime], whose constructor validates the fields.  The model
    covers the directives the two formats of this program use, in an English
    locale. *)

Record datetime : Type := mk_datetime {
  year : nat; month : nat; day : nat;
  hour : nat; minute : nat; second : nat
}.

Inductive regex : Type :=
  | RChar (c : ascii)
  | RSet (lo hi : ascii)
  | RDigit
  | RSpaces
  | RSeq (r1 r2 : regex)
  | RAlt (r1 r2 : regex).

Definition is_digit (c : ascii) : bool :=
  let n := nat_of_ascii c in ((48 <=? n) && (n <=? 57))%nat.

Definition is_space (c : ascii) : bool :=
  let n := nat_of_ascii c in
  (((9 <=? n) && (n <=? 13)) || ((28 <=? n) && (n <=? 32)))%nat.

Definition in_set (lo hi c : ascii) : bool :=
  ((nat_of_ascii lo <=? nat_of_ascii c)
   && (nat_of_ascii c <=? nat_of_ascii hi))%nat.

(** [\s+] is greedy: the longest run first, then shorter ones. *)
Fixpoint match_spaces (s : string) : list (string * string) :=
  match s with
  | String c s' =>
      if is_space c
      then map (fun mr => (String c mr.1, mr.2)) (match_spaces s')
             ++ [(String c "", s')]
      else []
  | EmptyString => []
  end.

Definition match_one (p : ascii → bool) (s : string) : list (string * string) :=
  match s with
  | String c s' => if p c then [(String c "", s')] else []
  | EmptyString => []
  end.

(** All the ways [r] matches a prefix of [s], as (matched text, rest), in the
    order in which a backtracking matcher tries them. *)
Fixpoint rmatch (r : regex) (s : string) : list (string * string) :=
  match r with
  | RChar c => match_one (fun c' => Ascii.eqb (lower_ascii c) (lower_ascii c')) s
  | RSet lo hi => match_one (in_set lo hi) s
  | RDigit => match_one is_digit s
  | RSpaces => match_spaces s
  | RSeq r1 r2 =>
      mr1 ← rmatch r1 s;
      mr2 ← rmatch r2 mr1.2;
      [(mr1.1 +:+ mr2.1, mr2.2)]
  | RAlt r1 r2 => rmatch r1 s ++ rmatch r2 s
  end.

Fixpoint rstr (c : ascii) (s : string) : regex :=
  match s with
  | EmptyString => RChar c
  | String c' s' => RSeq (RChar c) (rstr c' s')
  end.

Definition rword (s : string) : regex :=
  match s with
  | String c s' => rstr c s'
  | EmptyString => RSpaces
  end.

Fixpoint ralts (r : regex) (rs : list regex) : regex :=
  match rs with
  | [] => r
  | r' :: rs' => RAlt r (ralts r' rs')
  end.

Inductive directive : Type := dY | dm | dd | dH | dM | dS | dI | dp | dB.

#[global] Instance directive_eq_dec : EqDecision directive.
Proof. solve_decision. Defined.

(** [locale_time.f_month[1:]] *)
Definition f_month : list string :=
  ["january"; "february"; "march"; "april"; "may"; "june"; "july";
   "august"; "september"; "october"; "november"; "december"].

(** The group of each directive, as in [TimeRE.__init__]; the names of [%B]
    and [%p] are sorted by decreasing length. *)
Definition directive_regex (d : directive) : regex :=
  match d with
  | dY => RSeq RDigit (RSeq RDigit (RSeq RDigit RDigit))
  | dm => ralts (RSeq (RChar "1") (RSet "0" "2"))
            [RSeq (RChar "0") (RSet "1" "9"); RSet "1" "9"]
  | dd => ralts (RSeq (RChar "3") (RSet "0" "1"))
            [RSeq (RSet "1" "2") RDigit; RSeq (RChar "0") (RSet "1" "9");
             RSet "1" "9"; RSeq (RChar " ") (RSet "1" "9")]
  | dH => ralts (RSeq (RChar "2") (RSet "0" "3"))
            [RSeq (RSet "0" "1") RDigit; RDigit]
  | dI => ralts (RSeq (RChar "1") (RSet "0" "2"))
            [RSeq (RChar "0") (RSet "1" "9"); RSet "1" "9"]
  | dM => ralts (RSeq (RSet "0" "5") RDigit) [RDigit]
  | dS => ralts (RSeq (RChar "6") (RSet "0" "1"))
            [RSeq (RSet "0" "5") RDigit; RDigit]
  | dp => ralts (rword "am") [rword "pm"]
  | dB => ralts (rword "september")
            (map rword ["february"; "november"; "december"; "january";
                        "october"; "august"; "march"; "april"; "june";
                        "july"; "may"])
  end.

Inductive fmt_item : Type :=
  | Directive (d : directive)
  | Literal (c : ascii)
  | Whitespace.

(** All the matches of a compiled format, with the text of each group. *)
Fixpoint pmatch (items : list fmt_item) (s : string)
  : list (list (directive * string) * string) :=
  match items with
  | [] => [([], s)]
  | Directive d :: items' =>
      mr ← rmatch (directive_regex d) s;
      fr ← pmatch items' mr.2;
      [((d, mr.1) :: fr.1, fr.2)]
  | Literal c :: items' =>
      mr ← rmatch (RChar c) s;
      pmatch items' mr.2
  | Whitespace :: items' =>
      mr ← rmatch RSpaces s;
      pmatch items' mr.2
  end.

(** [int(text)] of a group: decimal digits, after optional white space. *)
Definition py_int (text : string) : nat :=
  (fix go (s : string) (acc : nat) : nat :=
     match s with
     | EmptyString => acc
     | String c s' =>
         if is_digit c then go s' (10 * acc + (nat_of_ascii c - 48))%nat
         else go s' acc
     end) text O.

Fixpoint index_of (x : string) (l : list string) : nat :=
  match l with
  | [] => O
  | y :: l' => if String.eqb x y then O else S (index_of x l')
  end.

Fixpoint group (d : directive) (found : list (directive * string))
  : option string :=
  match found with
  | [] => None
  | (d', text) :: found' => if decide (d = d') then Some text else group d found'
  end.

(** The loop over [found_dict] of [_strptime], from the defaults
    [1900-01-01 00:00:00]. *)
Definition convert_group (found : list (directive * string))
    (dt : datetime) (g : directive * string) : datetime :=
  let '(d, text) := g in
  let set_hour h :=
    mk_datetime (year dt) (month dt) (day dt) h (minute dt) (second dt) in
  match d with
  | dY => mk_datetime (py_int text) (month dt) (day dt)
            (hour dt) (minute dt) (second dt)
  | dm => mk_datetime (year dt) (py_int text) (day dt)
            (hour dt) (minute dt) (second dt)
  | dB => mk_datetime (year dt) (S (index_of (lower text) f_month)) (day dt)
            (hour dt) (minute dt) (second dt)
  | dd => mk_datetime (year dt) (month dt) (py_int text)
            (hour dt) (minute dt) (second dt)
  | dH => set_hour (py_int text)
  | dI =>
      let h := py_int text in
      let ampm := lower (default "" (group dp found)) in
      if String.eqb ampm "" || String.eqb ampm "am"
      then set_hour (if (h =? 12)%nat then O else h)
      else if String.eqb ampm "pm"
      then set_hour (if (h =? 12)%nat then h else (h + 12)%nat)
      else set_hour h
  | dM => mk_datetime (year dt) (month dt) (day dt)
            (hour dt) (py_int text) (second dt)
  | dS => mk_datetime (year dt) (month dt) (day dt)
            (hour dt) (minute dt) (py_int text)
  | dp => dt
  end.

Definition is_leap (y : nat) : bool :=
  ((y mod 4 =? 0) && (negb (y mod 100 =? 0) || (y mod 400 =? 0)))%nat.

Definition days_in_month (y m : nat) : nat :=
  match m with
  | 2%nat => if is_leap y then 29%nat else 28%nat
  | 4%nat | 6%nat | 9%nat | 11%nat => 30%nat
  | _ => 31%nat
  end.

(** The checks of the [date] and [datetime] constructors. *)
Definition valid_datetime (dt : datetime) : bool :=
  ((1 <=? year dt) && (year dt <=? 9999)
   && (1 <=? month dt) && (month dt <=? 12)
   && (1 <=? day dt) && (day dt <=? days_in_month (year dt) (month dt))
   && (hour dt <=? 23) && (minute dt <=? 59) && (second dt <=? 59))%nat.

Definition strptime_str (data : string) (format : list fmt_item)
  : result datetime :=
  match pmatch format data with
  | [] => Raise ValueError
  | (found, rest) :: _ =>
      if negb (String.eqb rest "") then Raise ValueError
      else
        let dt := fold_left (convert_group found) found
                    (mk_datetime 1900 1 1 0 0 0) in
        if valid_datetime dt then Ok dt else Raise ValueError
  end.

(** [datetime.strptime(data, format)]: the text must be a [str]. *)
Definition strptime (data : json) (format : list fmt_item) : result datetime :=
  match data with
  | JStr s => strptime_str s format
  | _ => Raise TypeError
  end.

(** ["%Y%m%d%H%M%S"] *)
Definition ups_format : list fmt_item :=
  [Directive dY; Directive dm; Directive dd;
   Directive dH; Directive dM; Directive dS].

(** ["%B %d, %Y %I:%M %p"] *)
Definition usps_format : list fmt_item :=
  [Directive dB; Whitespace; Directive dd; Literal ","; Whitespace;
   Directive dY; Whitespace; Directive dI; Literal ":"; Directive dM;
   Whitespace; Directive dp].

(** ** Normalised records and diagnostics *)

(** A field of a normalised record: a decoded value ([None] is
    [VJson JNull]) or a parsed [datetime]. *)
Inductive value : Type :=
  | VJson (j : json)
  | VDatetime (d : datetime).

Definition VNone : value := VJson JNull.
Definition VStr (s : string) : value := VJson (JStr s).

(** What the fetchers [print]. *)
Inductive diagnostic : Type :=
  | FailRateWarning (fail_rate : float)
  | FailedAtRequest (request : string).

(** What an entry point returns: normalised records or raw responses. *)
Inductive tracking_output : Type :=
  | Simplified (records : list (gmap string value))
  | Raw (responses : list json).

(** [for x in xs: st = body(st, x)], stopping at the first exception. *)
Fixpoint for_each {S X : Type} (body : S → X → result S) (st : S) (xs : list X)
  : result S :=
  match xs with
  | [] => Ok st
  | x :: xs' => st' ← body st x; for_each body st' xs'
  end.

(** [len(a) / len(b)]: true division of two lengths, the correctly rounded
    binary64 quotient (the conversion of a length below [2^53] is exact). *)
Definition float_of_len (n : nat) : float :=
  PrimFloat.of_uint63 (Uint63.of_Z (Z.of_nat n)).

Definition py_truediv (a b : nat) : result float :=
  match b with
  | O => Raise ZeroDivisionError
  | _ => Ok (PrimFloat.div (float_of_len a) (float_of_len b))
  end.

(** [table[key]] for a dict [table] with [str] keys: a list or a dict is
    unhashable, any other key is missing. *)
Definition py_lookup_key (table key : json) : result json :=
  match key with
  | JStr k => py_getitem table k
  | JList _ | JDict _ => Raise TypeError
  | _ => match table with JDict _ => Raise KeyError | _ => Raise TypeError end
  end.

(** [table.get(key)] for a dict [table] with [str] keys. *)
Definition py_get_key (table key : json) : result json :=
  match key with
  | JStr k => py_get table k
  | JList _ | JDict _ => Raise TypeError
  | _ => match table with JDict _ => Ok JNull | _ => Raise AttributeError end
  end.

Fixpoint chars (s : string) : list json :=
  match s with
  | EmptyString => []
  | String c s' => JStr (String c EmptyString) :: chars s'
  end.

(** The items [results.extend(x)] appends: the elements of a list, the keys
    of a dict, the characters of a [str]; nothing else is iterable. *)
Definition py_iter (x : json) : result (list json) :=
  match x with
  | JList l => Ok l
  | JDict d => Ok (map (fun kv => JStr kv.1) d)
  | JStr s => Ok (chars s)
  | _ => Raise TypeError
  end.

(** ** class UPS *)

Module UPS.

Definition ups_status_codes : json :=
  let entry general ups rank :=
    JDict [("general_status", JStr general); ("ups_status", JStr ups);
           ("status_rank", JNum rank)] in
  JDict
    [("X", entry "Exception" "Exception" 9);
     ("RS", entry "Return to Sender" "Returned to Shipper" 8);
     ("NA", entry "Not Available" "Not Available" 7);
     ("MV", entry "Cancelled" "Billing Information Voided" 6);
     ("M", entry "Pre-Shipment" "Billing Information Received" 5);
     ("P", entry "In Transit" "Pickup" 4);
     ("I", entry "In Transit" "In Transit" 3);
     ("O", entry "Out for Delivery" "Out for Delivery" 2);
     ("D", entry "Delivered" "Delivered" 1)].

(** [tracking_activity[0]] if the activity is a list, else the activity. *)
Definition latest_of (tracking_activity : json) : result json :=
  if is_list tracking_activity then py_first tracking_activity
  else Ok tracking_activity.

(** [try: status_rank = self.ups_status_codes[latest_status].get("status_rank")
     except: status_rank = 0] *)
Definition status_rank_of (latest_status : json) : Z :=
  try_except
    (entry ← py_lookup_key ups_status_codes latest_status;
     rank ← py_get entry "status_rank";
     match rank with JNum n => Ok n | _ => Raise TypeError end)
    0.

(** The body of [for tracking_num in package_data], on the variables
    [overall_activity] ([None] while unbound) and [overall_rank]. *)
Definition rank_step (st : option json * Z) (tracking_num : json)
  : result (option json * Z) :=
  tracking_activity ← py_get tracking_num "Activity";
  latest_activity ← latest_of tracking_activity;
  status ← py_get latest_activity "Status";
  latest_status ← py_get status "Type";
  let status_rank := status_rank_of latest_status in
  if status_rank >? st.2 then Ok (Some latest_activity, status_rank)
  else Ok st.

(** Lines 135-153: the value of [overall_activity] after the branch on
    [type(package_data) == list]; the variable keeps the value of the
    previous response while the loop does not assign it. *)
Definition resolve_overall (overall_activity : option json)
    (package_data : json) : result json :=
  match package_data with
  | JList packages =>
      st ← for_each rank_step (overall_activity, 0) packages;
      match st.1 with
      | Some activity => Ok activity
      | None => Raise UnboundLocalError
      end
  | _ => py_get package_data "Activity"
  end.

(** Lines 172-179. *)
Definition checkpoint_location (package_activity : json) : json :=
  try_except
    (loc ← py_getitem package_activity "ActivityLocation";
     activity_location ← py_getitem loc "Address";
     city ← py_get_default activity_location "City" (JStr "---");
     state_province_code ←
       py_get_default activity_location "StateProvinceCode" (JStr "---");
     country_code ←
       py_get_default activity_location "CountryCode" (JStr "---");
     s ← join ", " [country_code; state_province_code; city];
     Ok (JStr (upper s)))
    JNull.

(** Lines 181-182. *)
Definition tracking_status (package_activity : json) : result json :=
  status ← py_getitem package_activity "Status";
  ups_code ← py_getitem status "Type";
  entry ← py_lookup_key ups_status_codes ups_code;
  py_get_default entry "general_status" (JStr "Unknown").

(** Lines 159-184: the record built from the chosen activity. *)
Definition build_record (tracking_number package_activity : json)
  : result (gmap string value) :=
  let ups_status : gmap string value :=
    <["checkpointStatusMessage" := VNone]>
      (<["trackingStatus" := VNone]>
         (<["checkpointLocation" := VNone]>
            (<["trackingNumber" := VNone]>
               (<["checkpointDate" := VNone]> ∅)))) in
  date ← py_get package_activity "Date";
  time ← py_get package_activity "Time";
  activity_datetime_str ← py_add date time;
  checkpoint_date ← strptime activity_datetime_str ups_format;
  let ups_status := <["checkpointDate" := VDatetime checkpoint_date]> ups_status in
  let ups_status := <["trackingNumber" := VJson tracking_number]> ups_status in
  let ups_status :=
    <["checkpointLocation" := VJson (checkpoint_location package_activity)]>
      ups_status in
  status ← tracking_status package_activity;
  let ups_status := <["trackingStatus" := VJson status]> ups_status in
  st ← py_get package_activity "Status";
  description ← py_get st "Description";
  Ok (<["checkpointStatusMessage" := VJson description]> ups_status).

(** Lines 133-157: the tracking number, the new value of
    [overall_activity] and the activity the record is built from. *)
Definition select_activity (overall_activity : option json) (resp : json)
  : result (json * json * json) :=
  track_response ← py_get resp "TrackResponse";
  shipment ← py_get track_response "Shipment";
  package_data ← py_get shipment "Package";
  inquiry ← py_get shipment "InquiryNumber";
  tracking_number ← py_get inquiry "Value";
  overall_activity ← resolve_overall overall_activity package_data;
  package_activity ← latest_of overall_activity;
  Ok (tracking_number, overall_activity, package_activity).

(** The body of [for resp in tracking_results], on [overall_activity] and
    [stan_tracking_results]. *)
Definition simplify_step (st : option json * list (gmap string value))
    (resp : json) : result (option json * list (gmap string value)) :=
  selected ← select_activity st.1 resp;
  ups_status ← build_record selected.1.1 selected.2;
  Ok (Some selected.1.2, st.2 ++ [ups_status]).

Definition _simplify_ups (tracking_results : list json)
  : result (list (gmap string value)) :=
  st ← for_each simplify_step (None, []) tracking_results;
  Ok st.2.

Section Client.
Variables ups_username ups_password ups_license : string.
(** [await (session.get(url, json=request_data)).json()] *)
Variable session_get : json → result json.

(** The payload of one tracking number (lines 87-99). *)
Definition payload (tracking_number : string) : json :=
  JDict
    [("Security",
       JDict
         [("UsernameToken",
            JDict [("Username", JStr ups_username);
                   ("Password", JStr ups_password)]);
          ("UPSServiceAccessToken",
            JDict [("AccessLicenseNumber", JStr ups_license)])]);
     ("TrackRequest",
       JDict
         [("Request",
            JDict [("RequestAction", JStr "Track");
                   ("RequestOption", JStr "activity")]);
          ("InquiryNumber", JStr tracking_number)])].

Definition _create_ups_request (tracking_list : list string) : list json :=
  map payload tracking_list.

(** The body of [for request_data in ups_requests], on
    [tracking_results] and [ups_failed]. *)
Definition fetch_step (st : list json * list json) (request_data : json)
  : result (list json * list json) :=
  resp ← session_get request_data;
  fault ← py_get resp "Fault";
  match fault with
  | JNull => Ok (st.1 ++ [resp], st.2)
  | _ =>
      track_request ← py_get request_data "TrackRequest";
      inquiry_number ← py_get track_request "InquiryNumber";
      Ok (st.1, st.2 ++ [inquiry_number])
  end.

(** The results and what was printed. *)
Definition _track_ups (ups_requests : list json)
  : result (list json * list diagnostic) :=
  st ← for_each fetch_step ([], []) ups_requests;
  fail_rate ← py_truediv (length st.2) (length ups_requests);
  if PrimFloat.ltb 0.05%float fail_rate
  then Ok (st.1, [FailRateWarning fail_rate])
  else Ok (st.1, []).

Definition track_ups (tracking_list : list string) (simplify : bool)
  : result (tracking_output * list diagnostic) :=
  let ups_requests := _create_ups_request tracking_list in
  fetched ← _track_ups ups_requests;
  if simplify
  then stan_tracking_results ← _simplify_ups fetched.1;
       Ok (Simplified stan_tracking_results, fetched.2)
  else Ok (Raw fetched.1, fetched.2).
End Client.

End UPS.

(** ** class USPS *)

Module USPS.

Definition usps_status_codes : json :=
  JDict
    [("Delivered", JStr "Delivered");
     ("Delivered to Agent", JStr "Delivered");
     ("Alert", JStr "Exception");
     ("In Transit", JStr "In Transit");
     ("Out for Delivery", JStr "Out for Delivery");
     ("Pre-Shipment", JStr "Pre-Shipment");
     ("Delivery Attempt", JStr "Delivered - Delivery Attempt");
     ("Available for Pickup", JStr "Delivered - Available for Pickup")].

(** Lines 325-332.  Here [i] is a dict (its [get] has just succeeded), so
    [track_summary] is bound by the first statement of the block. *)
Definition checkpoint_date (i : json) : value :=
  try_except
    (track_summary ← py_get i "TrackSummary";
     event_time ← py_get track_summary "EventTime";
     event_date ← py_get track_summary "EventDate";
     with_space ← py_add event_date (JStr " ");
     event_dt ← py_add with_space event_time;
     parsed ← strptime event_dt usps_format;
     Ok (VDatetime parsed))
    VNone.

(** Lines 333-338. *)
Definition checkpoint_location (i : json) : value :=
  try_except
    (track_summary ← py_get i "TrackSummary";
     city ← py_get track_summary "EventCity";
     event_city ← py_upper city;
     state ← py_get track_summary "EventState";
     event_state ← py_upper state;
     s ← join ", " [JStr event_city; JStr event_state; JStr "US"];
     Ok (VStr s))
    VNone.

(** Lines 339-344. *)
Definition checkpoint_status_message (i : json) : value :=
  try_except
    (status ← py_get i "Status";
     with_dash ← py_add status (JStr " - ");
     summary ← py_get i "StatusSummary";
     message ← py_add with_dash summary;
     Ok (VJson message))
    VNone.

(** The body of [for i in tracking_results]; [None] is [continue]. *)
Definition simplify_entry (i : json) : result (option (gmap string value)) :=
  match py_get i "@ID" with
  | Raise _ => Ok None
  | Ok tracking_number =>
      category ← py_get i "StatusCategory";
      status ← py_get_key usps_status_codes category;
      Ok (Some
            (<["checkpointStatusMessage" := checkpoint_status_message i]>
               (<["checkpointLocation" := checkpoint_location i]>
                  (<["checkpointDate" := checkpoint_date i]>
                     (<["trackingStatus" := VJson status]>
                        (<["trackingNumber" := VJson tracking_number]> ∅))))))
  end.

Definition simplify_step (stan_tracking_results : list (gmap string value))
    (i : json) : result (list (gmap string value)) :=
  entry ← simplify_entry i;
  match entry with
  | Some stantrack_usps => Ok (stan_tracking_results ++ [stantrack_usps])
  | None => Ok stan_tracking_results
  end.

Definition _simplify_usps (tracking_results : list json)
  : result (list (gmap string value)) :=
  for_each simplify_step [] tracking_results.

(** The attributes [__init__] stores. *)
Record credentials : Type := mk_credentials {
  self_usps_username : string;
  self_company_name : string
}.

(** Lines 202-210: both arguments are required. *)
Definition __init__ (usps_username company_name : string)
  : result credentials :=
  if String.eqb usps_username "" then Raise ValueError
  else if String.eqb company_name "" then Raise ValueError
  else Ok (mk_credentials usps_username company_name).

Definition dquote : string := String (ascii_of_nat 34) EmptyString.
Definition newline : string := String (ascii_of_nat 10) EmptyString.
Definition indent (n : nat) : string :=
  fold_right String.append EmptyString (replicate n " ").

Section Client.
Variables usps_username company_name : string.
(** [socket.gethostbyname(socket.gethostname())] *)
Variable ip_address : string.
(** The decoded document of a request:
    [json.loads(json.dumps(xmltodict.parse(await resp.text())))], or the
    exception of the transport or of the decoder. *)
Variable session_get : string → result json.

Definition track_id (tracking_number : string) : string :=
  "<TrackID ID=" +:+ dquote +:+ tracking_number +:+ dquote +:+ "/>".

Definition _create_usps_requests (tracking_chunks : list (list string))
  : list string :=
  map (fun chunk =>
         let xml_string :=
           fold_right String.append EmptyString (map track_id chunk) in
         let payload :=
           newline +:+ indent 16 +:+ "<TrackFieldRequest USERID=" +:+ dquote
             +:+ usps_username +:+ dquote +:+ ">"
           +:+ newline +:+ indent 16 +:+ "<Revision>1</Revision>"
           +:+ newline +:+ indent 16 +:+ "<ClientIp>" +:+ ip_address
             +:+ "</ClientIp>"
           +:+ newline +:+ indent 16 +:+ "<SourceId>" +:+ company_name
             +:+ "</SourceId>"
           +:+ newline +:+ indent 16 +:+ xml_string
           +:+ newline +:+ indent 16 +:+ "</TrackFieldRequest>"
           +:+ newline +:+ indent 12 in
         "https://secure.shippingapis.com/ShippingAPI.dll?API=TrackV2&XML="
           +:+ payload)
      tracking_chunks.

(** Lines 308-312: one request, on [tracking_results]. *)
Definition fetch_step (tracking_results : list json) (request : string)
  : result (list json) :=
  doc ← session_get request;
  track_response ← py_get doc "TrackResponse";
  json_resp ← py_get track_response "TrackInfo";
  items ← py_iter json_resp;
  Ok (tracking_results ++ items).

(** Lines 306-316: the loop inside [try], whose [except] prints the
    request in flight and returns what was accumulated. *)
Fixpoint track_loop (tracking_results : list json)
    (usps_requests : list string) : list json * list diagnostic :=
  match usps_requests with
  | [] => (tracking_results, [])
  | request :: rest =>
      match fetch_step tracking_results request with
      | Ok tracking_results' => track_loop tracking_results' rest
      | Raise _ => (tracking_results, [FailedAtRequest request])
      end
  end.

Definition _track_usps (usps_requests : list string)
  : list json * list diagnostic :=
  track_loop [] usps_requests.

Definition track_usps (tracking_list : list string) (simplify : bool)
  : result (tracking_output * list diagnostic) :=
  tracking_chunks ← chunk_list 10 tracking_list;
  let usps_requests := _create_usps_requests tracking_chunks in
  let fetched := _track_usps usps_requests in
  if simplify
  then stan_tracking_results ← _simplify_usps fetched.1;
       Ok (Simplified stan_tracking_results, fetched.2)
  else Ok (Raw fetched.1, fetched.2).
End Client.

End USPS.

(** ** Vocabulary of the properties *)

(** The number of chunks of [n] items in chunks of [k]: the ceiling of
    [n / k]. *)
Definition ceil_div (n k : nat) : nat := ((n + k - 1) / k)%nat.

(** The five fields of a normalised record. *)
Definition record_fields : gset string :=
  {[ "trackingNumber"; "trackingStatus"; "checkpointDate";
     "checkpointLocation"; "checkpointStatusMessage" ]}.

(** A response of Carrier A that carries a [Fault]. *)
Definition has_fault (resp : json) : bool :=
  match py_get resp "Fault" with
  | Ok JNull => false
  | _ => true
  end.

(** The entries a request of Carrier B contributes when its step succeeds. *)
Definition entries_of (session_get : string → result json) (request : string)
  : list json :=
  try_except (USPS.fetch_step session_get [] request) [].

(** A component of the address of Carrier A, with its placeholder. *)
Definition address_component (d : list (string * json)) (k : string) : json :=
  match assoc k d with
  | Some v => v
  | None => JStr "---"
  end.

(** 2024-01-01T09:30:00 *)
Definition new_year_0930 : datetime := mk_datetime 2024 1 1 9 30 0.

(** The latest event of a package and its rank, as the body of the loop over
    the packages computes them (lines 138-147). *)
Definition package_latest (tracking_num : json) : result (json * Z) :=
  tracking_activity ← py_get tracking_num "Activity";
  latest_activity ← UPS.latest_of tracking_activity;
  status ← py_get latest_activity "Status";
  latest_status ← py_get status "Type";
  Ok (latest_activity, UPS.status_rank_of latest_status).

(** Lines 148-150 on the pair of [overall_activity] and [overall_rank]. *)
Definition keep_higher (st : option json * Z) (ar : json * Z)
  : option json * Z :=
  if ar.2 >? st.2 then (Some ar.1, ar.2) else st.

(** Documents of the shape the carriers answer with, used as concrete
    inputs. *)
Module Samples.

Definition address : json :=
  JDict [("City", JStr "Louisville"); ("StateProvinceCode", JStr "KY");
         ("CountryCode", JStr "US")].

Definition activity (code date time : string) : json :=
  JDict [("ActivityLocation", JDict [("Address", address)]);
         ("Status", JDict [("Type", JStr code);
                           ("Description", JStr "Status description")]);
         ("Date", JStr date); ("Time", JStr time)].

Definition package (activity : json) : json :=
  JDict [("TrackingNumber", JStr "1Z0000000000000001");
         ("Activity", activity)].

(** A [TrackResponse] of Carrier A for [number]. *)
Definition ups_response (number : string) (package_data : json) : json :=
  JDict
    [("TrackResponse",
       JDict
         [("Shipment",
            JDict [("InquiryNumber",
                     JDict [("Code", JStr "01"); ("Value", JStr number)]);
                   ("Package", package_data)])])].

(** A [Fault] answer of Carrier A. *)
Definition ups_fault : json :=
  JDict [("Fault", JDict [("faultcode", JStr "Client");
                          ("faultstring", JStr "An exception has been raised")])].

(** A [TrackInfo] entry of Carrier B. *)
Definition track_info (id city state category date time : string) : json :=
  JDict [("@ID", JStr id);
         ("TrackSummary",
           JDict [("EventTime", JStr time); ("EventDate", JStr date);
                  ("Event", JStr "Event description");
                  ("EventCity", JStr city); ("EventState", JStr state)]);
         ("Status", JStr "Status text");
         ("StatusCategory", JStr category);
         ("StatusSummary", JStr "Status summary")].

(** A [TrackInfo] entry of Carrier B that reports an error. *)
Definition track_error (id : string) : json :=
  JDict [("@ID", JStr id);
         ("Error", JDict [("Number", JStr "-2147219283");
                          ("Description", JStr "No record of that item")])].

(** The decoded document of Carrier B, as [xmltodict] builds it: [TrackInfo]
    is a list when the document has several entries, the entry itself when
    it has one, and the response is [None] when it has none. *)
Definition usps_document (track_infos : list json) : json :=
  JDict [("TrackResponse",
           match track_infos with
           | [] => JNull
           | [entry] => JDict [("TrackInfo", entry)]
           | _ => JDict [("TrackInfo", JList track_infos)]
           end)].

(** Twenty tracking numbers, and twenty requests of Carrier B. *)
Definition batch20 : list string :=
  ["1Z01"; "1Z02"; "1Z03"; "1Z04"; "1Z05"; "1Z06"; "1Z07"; "1Z08"; "1Z09";
   "1Z10"; "1Z11"; "1Z12"; "1Z13"; "1Z14"; "1Z15"; "1Z16"; "1Z17"; "1Z18";
   "1Z19"; "1Z20"].

Definition requests20 : list string :=
  ["request01"; "request02"; "request03"; "request04"; "request05";
   "request06"; "request07"; "request08"; "request09"; "request10";
   "request11"; "request12"; "request13"; "request14"; "request15";
   "request16"; "request17"; "request18"; "request19"; "request20"].

Definition inquiry_number (request : json) : string :=
  match track_request ← py_get request "TrackRequest";
        py_get track_request "InquiryNumber" with
  | Ok (JStr number) => number
  | _ => ""
  end.

(** Carrier A answering with a [Fault] for the numbers of [faulty], failing
    to answer for those of [down], and with a delivered package otherwise. *)
Definition ups_server (faulty down : list string) (request : json)
  : result json :=
  let number := inquiry_number request in
  if bool_decide (number ∈ down) then Raise TransportError
  else if bool_decide (number ∈ faulty) then Ok ups_fault
  else Ok (ups_response number (package (activity "D" "20240101" "093000"))).

(** Carrier B answering the requests of [erring] with two entries that
    report an error, failing to answer those of [down], and with two
    delivered entries otherwise. *)
Definition usps_server (erring down : list string) (request : string)
  : result json :=
  if bool_decide (request ∈ down) then Raise TransportError
  else if bool_decide (request ∈ erring)
  then Ok (usps_document [track_error (request +:+ "-a");
                          track_error (request +:+ "-b")])
  else Ok (usps_document
             [track_info (request +:+ "-a") "Louisville" "KY" "Delivered"
                "January 1, 2024" "09:30 AM";
              track_info (request +:+ "-b") "Louisville" "KY" "Delivered"
                "January 1, 2024" "09:30 AM"]).

(** The entries of the answer all report an error. *)
Definition reports_error (answer : result json) : bool :=
  match answer with
  | Ok doc =>
      match track_response ← py_get doc "TrackResponse";
            py_get track_response "TrackInfo" with
      | Ok (JList entries) =>
          forallb (λ entry, match py_get entry "Error" with
                            | Ok JNull | Raise _ => false
                            | Ok _ => true
                            end) entries
      | _ => false
      end
  | Raise _ => false
  end.

End Samples.

(** ** Vocabulary of the further properties *)

(** [type(x) == dict] *)
Definition is_dict (x : json) : bool :=
  match x with JDict _ => true | _ => false end.

(** A value that can be the key of a dict lookup. *)
Definition hashable (x : json) : bool :=
  match x with JList _ | JDict _ => false | _ => true end.

(** [i.get(k)] of an entry, [None] where the entry is no dict. *)
Definition field_of (i : json) (k : string) : json :=
  try_except (py_get i k) JNull.

(** [resp.get("TrackResponse").get("Shipment").get("InquiryNumber").get("Value")]
    (line 134). *)
Definition inquiry_value (resp : json) : result json :=
  track_response ← py_get resp "TrackResponse";
  shipment ← py_get track_response "Shipment";
  inquiry ← py_get shipment "InquiryNumber";
  py_get inquiry "Value".

(** [resp.get("TrackResponse").get("Shipment").get("Package")] (line 133). *)
Definition package_data_of (resp : json) : result json :=
  track_response ← py_get resp "TrackResponse";
  shipment ← py_get track_response "Shipment";
  py_get shipment "Package".

(** The values of [general_status] in [ups_status_codes]. *)
Definition ups_vocabulary : list string :=
  ["Exception"; "Return to Sender"; "Not Available"; "Cancelled";
   "Pre-Shipment"; "In Transit"; "Out for Delivery"; "Delivered"].

(** The values of [usps_status_codes], and [None]. *)
Definition usps_vocabulary : list json :=
  [JNull; JStr "Delivered"; JStr "Exception"; JStr "In Transit";
   JStr "Out for Delivery"; JStr "Pre-Shipment";
   JStr "Delivered - Delivery Attempt";
   JStr "Delivered - Available for Pickup"].


(** The call returned. *)
Definition succeeded {A} (r : result A) : bool :=
  match r with Ok _ => true | Raise _ => false end.

(** The decimal digit [k] as a character. *)
Definition digit_char (k : nat) : ascii := ascii_of_nat (48 + k).

(** [n] written with two and with four decimal digits, zero padded. *)
Definition two_digits (n : nat) : string :=
  String (digit_char (n / 10)) (String (digit_char (n mod 10)) EmptyString).

Definition four_digits (n : nat) : string :=
  String (digit_char (n / 1000))
    (String (digit_char (n / 100 mod 10))
       (String (digit_char (n / 10 mod 10))
          (String (digit_char (n mod 10)) EmptyString))).

(** A timestamp as Carrier A writes it: [YYYYMMDD] and [HHMMSS] joined. *)
Definition ups_timestamp (dt : datetime) : string :=
  four_digits (year dt) +:+ two_digits (month dt) +:+ two_digits (day dt)
    +:+ two_digits (hour dt) +:+ two_digits (minute dt)
    +:+ two_digits (second dt).

(** Joining as the normalisers do before parsing: the date and the time of
    an activity of Carrier A (line 167), and the event date, a space and the
    event time of an entry of Carrier B (lines 326-329). *)
Definition ups_event_text (package_activity : json) : result json :=
  date ← py_get package_activity "Date";
  time ← py_get package_activity "Time";
  py_add date time.

Definition usps_event_text (i : json) : result json :=
  track_summary ← py_get i "TrackSummary";
  event_time ← py_get track_summary "EventTime";
  event_date ← py_get track_summary "EventDate";
  with_space ← py_add event_date (JStr " ");
  py_add with_space event_time.

Definition month_names : list string :=
  ["January"; "February"; "March"; "April"; "May"; "June"; "July";
   "August"; "September"; "October"; "November"; "December"].

Definition month_name (m : nat) : string := nth (m - 1) month_names "".

(** [n < 100] in decimal, without padding. *)
Definition decimal (n : nat) : string :=
  if (n <? 10)%nat then String (digit_char n) EmptyString else two_digits n.

(** The hour of the 12-hour clock and its half of the day. *)
Definition hour12 (h : nat) : nat :=
  if (h mod 12 =? 0)%nat then 12%nat else (h mod 12)%nat.

Definition am_pm (h : nat) : string := if (h <? 12)%nat then "am" else "pm".

(** A date and a time as Carrier B writes them: ["January 1, 2024"] and
    ["9:30 am"]. *)
Definition usps_date_text (dt : datetime) : string :=
  month_name (month dt) +:+ " " +:+ decimal (day dt) +:+ ", "
    +:+ four_digits (year dt).

Definition usps_time_text (dt : datetime) : string :=
  decimal (hour12 (hour dt)) +:+ ":" +:+ two_digits (minute dt) +:+ " "
    +:+ am_pm (hour dt).

(** * Properties *)

(** ** The result monad and the loops *)

Lemma bind_Ok {A B} (m : result A) (f : A → result B) (b : B) :
  m ≫= f = Ok b ↔ ∃ a, m = Ok a ∧ f a = Ok b.
Proof.
  destruct m as [a|e]; cbn; split.
  - intros H. exists a. split; [reflexivity | exact H].
  - intros (a' & Ha & H). injection Ha as <-. exact H.
  - intros H. discriminate H.
  - intros (a' & Ha & _). discriminate Ha.
Qed.

Lemma bind_Ok_l {A B} (a : A) (f : A → result B) : Ok a ≫= f = f a.
Proof. reflexivity. Qed.

Lemma bind_Raise {A B} (m : result A) (f : A → result B) (e : exn) :
  m = Raise e → m ≫= f = Raise e.
Proof. intros ->. reflexivity. Qed.

Lemma append_assoc (a b c : string) : (a +:+ b) +:+ c = a +:+ b +:+ c.
Proof.
  induction a as [|x a IH]; [reflexivity|].
  change (String x a +:+ b) with (String x (a +:+ b)).
  change (String x (a +:+ b) +:+ c) with (String x ((a +:+ b) +:+ c)).
  rewrite IH. reflexivity.
Qed.

Lemma for_each_app {S X} (body : S → X → result S) (st : S) (xs ys : list X) :
  for_each body st (xs ++ ys) = for_each body st xs ≫= λ st', for_each body st' ys.
Proof.
  revert st. induction xs as [|x xs IH]; intros st; cbn.
  - reflexivity.
  - destruct (body st x) as [st'|e]; cbn; [apply IH | reflexivity].
Qed.

(** An exception in the body at some element ends the loop with it. *)
Lemma for_each_raise {S X} (body : S → X → result S) st st' pre x post e :
  for_each body st pre = Ok st' →
  body st' x = Raise e →
  for_each body st (pre ++ x :: post) = Raise e.
Proof.
  intros Hpre Hx. rewrite for_each_app, Hpre. cbn. rewrite Hx. reflexivity.
Qed.

(** A property of the loop state kept by every successful iteration holds
    when the loop returns. *)
Lemma for_each_invariant {S X} (P : S → Prop) (body : S → X → result S) xs :
  (∀ st x st', P st → body st x = Ok st' → P st') →
  ∀ st st', P st → for_each body st xs = Ok st' → P st'.
Proof.
  intros Hbody. induction xs as [|x xs IH]; intros st st' HP; cbn.
  - intros [= <-]. exact HP.
  - destruct (body st x) as [st1|e] eqn:E; cbn; [|discriminate].
    apply IH. eapply Hbody; eassumption.
Qed.

(** ** Chunking *)

Section ChunkingFacts.
Context {A : Type}.
Implicit Types (l : list A) (k n : nat).

Lemma ceil_div_step n k :
  (0 < k)%nat → (0 < n)%nat → ceil_div n k = S (ceil_div (n - k) k).
Proof.
  intros Hk Hn. unfold ceil_div.
  destruct (decide (k ≤ n)%nat) as [Hle|Hlt].
  - replace (n + k - 1)%nat with ((n - k + k - 1) + 1 * k)%nat by lia.
    rewrite Nat.div_add by lia. lia.
  - replace (n - k)%nat with O by lia.
    rewrite (Nat.div_small (0 + k - 1)) by lia.
    replace (n + k - 1)%nat with ((n - 1) + 1 * k)%nat by lia.
    rewrite Nat.div_add by lia. rewrite Nat.div_small by lia. reflexivity.
Qed.

Lemma ceil_div_0 k : (0 < k)%nat → ceil_div 0 k = O.
Proof. intros Hk. unfold ceil_div. apply Nat.div_small. lia. Qed.

(** [ceil_div n k] is the least [c] with [n <= c * k]. *)
Lemma ceil_div_bounds n k :
  (0 < k)%nat → (n ≤ ceil_div n k * k)%nat ∧ (ceil_div n k * k < n + k)%nat.
Proof.
  intros Hk. unfold ceil_div.
  pose proof (Nat.div_mod_eq (n + k - 1) k) as E.
  pose proof (Nat.mod_upper_bound (n + k - 1) k ltac:(lia)) as B.
  nia.
Qed.

Lemma range_from_S fuel start stop k :
  range_from (S fuel) start stop k
  = if (start <? stop)%nat
    then start :: range_from fuel (start + k) stop k else [].
Proof. reflexivity. Qed.

Lemma range_from_length fuel start stop k :
  (0 < k)%nat → (stop - start ≤ fuel)%nat →
  length (range_from fuel start stop k) = ceil_div (stop - start) k.
Proof.
  intros Hk. revert start.
  induction fuel as [|fuel IH]; intros start Hfuel.
  - cbn. replace (stop - start)%nat with O by lia.
    symmetry. apply ceil_div_0, Hk.
  - rewrite range_from_S.
    destruct (Nat.ltb_spec start stop) as [Hlt|Hge]; cbn [length].
    + rewrite IH by lia. rewrite (ceil_div_step (stop - start) k) by lia.
      do 2 f_equal. lia.
    + replace (stop - start)%nat with O by lia. symmetry. apply ceil_div_0, Hk.
Qed.

Lemma range_from_lookup fuel start stop k i x :
  range_from fuel start stop k !! i = Some x →
  x = (start + i * k)%nat ∧ (x < stop)%nat.
Proof.
  revert start i. induction fuel as [|fuel IH]; intros start i.
  - intros H. discriminate H.
  - rewrite range_from_S.
    destruct (Nat.ltb_spec start stop) as [Hlt|Hge]; [|intros H; discriminate H].
    destruct i as [|i]; cbn.
    + intros [= <-]. lia.
    + intros H. apply IH in H. lia.
Qed.

Lemma chunks_concat l k fuel start :
  (0 < k)%nat → (length l - start ≤ fuel)%nat →
  concat (map (λ i, slice l i (i + k)) (range_from fuel start (length l) k))
  = drop start l.
Proof.
  intros Hk. revert start.
  induction fuel as [|fuel IH]; intros start Hfuel.
  - cbn. symmetry. apply drop_ge. lia.
  - rewrite range_from_S.
    destruct (Nat.ltb_spec start (length l)) as [Hlt|Hge]; cbn [map concat].
    + rewrite IH by lia. unfold slice.
      replace (start + k - start)%nat with k by lia.
      rewrite <- drop_drop. apply take_drop.
    + symmetry. apply drop_ge. lia.
Qed.
End ChunkingFacts.

Section ChunkListSpec.
Context {A : Type}.

Lemma slice_length (l : list A) (i k : nat) :
  length (slice l i (i + k)) = (k `min` (length l - i))%nat.
Proof.
  unfold slice. rewrite length_take, length_drop. f_equal. lia.
Qed.

Lemma last_chunk_length (n k i : nat) :
  (0 < k)%nat → (i * k < n)%nat → (i < ceil_div n k)%nat →
  (k `min` (n - i * k))%nat
  = if decide (S i = ceil_div n k ∧ (n mod k)%nat ≠ O)
    then (n mod k)%nat else k.
Proof.
  intros Hk Hi Hc.
  pose proof (ceil_div_bounds n k Hk) as [Hlo Hhi].
  pose proof (Nat.div_mod_eq n k) as E.
  pose proof (Nat.mod_upper_bound n k ltac:(lia)) as B.
  set (c := ceil_div n k) in *. set (q := (n / k)%nat) in *.
  set (r := (n mod k)%nat) in *.
  destruct (decide (S i = c ∧ r ≠ O)) as [[Hlast Hr]|Hnot].
  - assert (i = q) as -> by nia. nia.
  - destruct (decide (S i = c)) as [Hlast|Hmid].
    + assert (r = O) as Hr0 by (destruct (decide (r = O)); [assumption|tauto]).
      assert (c = q) by nia. nia.
    + assert (S i < c)%nat by lia. nia.
Qed.

(** What [chunk_list] returns for a positive chunk size. *)
Lemma chunk_list_chunks (whole_list : list A) (chunk_size : Z) :
  0 < chunk_size →
  let n := length whole_list in
  let k := Z.to_nat chunk_size in
  ∃ chunks,
    chunk_list chunk_size whole_list = Ok chunks
    ∧ length chunks = ceil_div n k
    ∧ (∀ i c, chunks !! i = Some c →
         length c = if decide (S i = length chunks ∧ (n mod k)%nat ≠ O)
                    then (n mod k)%nat else k)
    ∧ concat chunks = whole_list.
Proof.
  intros Hpos n k.
  assert (0 < k)%nat as Hk by (subst k; lia).
  unfold chunk_list, py_range0.
  destruct (Z.eqb_spec chunk_size 0) as [?|_]; [lia|].
  destruct (Z.ltb_spec chunk_size 0) as [?|_]; [lia|].
  cbn. fold n k. eexists. split; [reflexivity|].
  assert (length (map (λ i, slice whole_list i (i + k)) (range_from n 0 n k))
          = ceil_div n k) as Hlen.
  { rewrite length_map, range_from_length by lia. f_equal. lia. }
  split; [exact Hlen|]. split.
  - intros i c Hi. rewrite Hlen.
    apply list_lookup_fmap_Some in Hi as (x & -> & Hx).
    pose proof (lookup_lt_Some _ _ _ Hx) as Hlt.
    rewrite range_from_length in Hlt by lia.
    replace (n - 0)%nat with n in Hlt by lia.
    apply range_from_lookup in Hx as [-> Hx].
    change (0 + i * k)%nat with (i * k)%nat in *.
    rewrite slice_length. fold n. apply last_chunk_length; assumption.
  - subst n. rewrite chunks_concat by lia. reflexivity.
Qed.
End ChunkListSpec.

(** ** The shape of a normalised record *)

Ltac bind_inv H :=
  let a := fresh "a" in
  let Ha := fresh "Ha" in
  apply bind_Ok in H as (a & Ha & H).

Lemma ups_build_record_fields tracking_number package_activity r :
  UPS.build_record tracking_number package_activity = Ok r →
  dom r = record_fields.
Proof.
  unfold UPS.build_record. intros H.
  do 7 bind_inv H. injection H as <-.
  rewrite !dom_insert_L, dom_empty_L. unfold record_fields. set_solver.
Qed.

Lemma usps_simplify_entry_fields i r :
  USPS.simplify_entry i = Ok (Some r) → dom r = record_fields.
Proof.
  unfold USPS.simplify_entry. intros H.
  destruct (py_get i "@ID") as [tracking_number|e]; [|discriminate H].
  do 2 bind_inv H. injection H as <-.
  rewrite !dom_insert_L, dom_empty_L. unfold record_fields. set_solver.
Qed.

Lemma ups_simplify_fields tracking_results out :
  UPS._simplify_ups tracking_results = Ok out →
  Forall (λ r, dom r = record_fields) out.
Proof.
  unfold UPS._simplify_ups. intros H. bind_inv H. injection H as <-.
  revert Ha.
  apply (for_each_invariant
           (λ st : option json * list (gmap string value),
              Forall (λ r, dom r = record_fields) st.2)).
  - intros st resp st' HP Hstep. unfold UPS.simplify_step in Hstep.
    do 2 bind_inv Hstep. injection Hstep as <-. cbn.
    apply Forall_app. split; [exact HP|].
    constructor; [|constructor]. eapply ups_build_record_fields; eassumption.
  - constructor.
Qed.

Lemma usps_simplify_fields tracking_results out :
  USPS._simplify_usps tracking_results = Ok out →
  Forall (λ r, dom r = record_fields) out.
Proof.
  unfold USPS._simplify_usps.
  apply (for_each_invariant (λ st, Forall (λ r, dom r = record_fields) st)).
  - intros st i st' HP Hstep. unfold USPS.simplify_step in Hstep.
    bind_inv Hstep. destruct a as [r|]; injection Hstep as <-; [|exact HP].
    apply Forall_app. split; [exact HP|].
    constructor; [|constructor]. eapply usps_simplify_entry_fields; eassumption.
  - constructor.
Qed.

(** ** The fetch loops *)

Section UpsFetch.
Variables ups_username ups_password ups_license : string.
Variable session_get : json → result json.

Local Abbreviation payload :=
  (UPS.payload ups_username ups_password ups_license).
Local Abbreviation fetch_step := (UPS.fetch_step session_get).

(** A completed loop keeps the responses without fault, in order, and
    records one failure per response with a fault. *)
Lemma ups_fetch_loop tracking_list (resps : list (list (string * json))) :
  Forall2 (λ tn d, session_get (payload tn) = Ok (JDict d)) tracking_list resps →
  ∀ st, ∃ failed,
    for_each fetch_step st (map payload tracking_list)
    = Ok (st.1 ++ List.filter (λ r, negb (has_fault r)) (map JDict resps),
          st.2 ++ failed)
    ∧ length failed = length (List.filter has_fault (map JDict resps)).
Proof.
  induction 1 as [|tn d tns ds Hget _ IH]; intros [ok ko].
  - exists []. cbn. rewrite !app_nil_r. split; reflexivity.
  - cbn [map for_each].
    assert (fetch_step (ok, ko) (payload tn)
            = Ok (if has_fault (JDict d) then (ok, ko ++ [JStr tn])
                  else (ok ++ [JDict d], ko))) as ->.
    { unfold UPS.fetch_step. rewrite Hget. unfold has_fault. cbn.
      destruct (assoc "Fault" d) as [[| | | | |]|]; reflexivity. }
    rewrite bind_Ok_l. cbn [List.filter negb].
    destruct (has_fault (JDict d)); cbn [negb fst snd].
    + destruct (IH (ok, ko ++ [JStr tn])) as (failed & -> & Hlen).
      exists (JStr tn :: failed). cbn [fst snd length].
      rewrite <- app_assoc, Hlen. split; reflexivity.
    + destruct (IH (ok ++ [JDict d], ko)) as (failed & -> & Hlen).
      exists failed. cbn [fst snd]. rewrite <- app_assoc.
      split; [reflexivity | exact Hlen].
Qed.

(** The outcome of a step does not depend on what was accumulated. *)
Lemma ups_fetch_step_raise st request e :
  session_get request = Raise e → fetch_step st request = Raise e.
Proof. intros H. unfold UPS.fetch_step. rewrite H. reflexivity. Qed.

Lemma ups_fetch_step_ok st request :
  is_Ok (fetch_step ([], []) request) → is_Ok (fetch_step st request).
Proof.
  unfold UPS.fetch_step, is_Ok.
  destruct (session_get request) as [resp|e]; cbn; [|intros [? [=]]].
  destruct (py_get resp "Fault") as [[| | | | |]|e]; cbn;
    try (intros [? [=]]; fail); try (intros _; eexists; reflexivity).
  all: destruct (py_get request "TrackRequest") as [tr|e]; cbn;
    [|intros [? [=]]];
    destruct (py_get tr "InquiryNumber") as [num|e]; cbn;
    [intros _; eexists; reflexivity | intros [? [=]]].
Qed.

Lemma ups_fetch_loop_ok requests :
  Forall (λ r, is_Ok (fetch_step ([], []) r)) requests →
  ∀ st, is_Ok (for_each fetch_step st requests).
Proof.
  induction 1 as [|r rs Hr _ IH]; intros st; cbn.
  - eexists. reflexivity.
  - destruct (ups_fetch_step_ok st r Hr) as [st' ->]. cbn. apply IH.
Qed.
End UpsFetch.

Section UspsFetch.
Variable session_get : string → result json.

Local Abbreviation fetch_step := (USPS.fetch_step session_get).

Lemma usps_fetch_step_acc acc request :
  fetch_step acc request
  = match fetch_step [] request with
    | Ok items => Ok (acc ++ items)
    | Raise e => Raise e
    end.
Proof.
  unfold USPS.fetch_step.
  destruct (session_get request) as [doc|e]; cbn; [|reflexivity].
  destruct (py_get doc "TrackResponse") as [tr|e]; cbn; [|reflexivity].
  destruct (py_get tr "TrackInfo") as [info|e]; cbn; [|reflexivity].
  destruct (py_iter info) as [items|e]; cbn; reflexivity.
Qed.

(** A batch whose requests all succeed returns every entry and prints
    nothing. *)
Lemma usps_track_loop_ok requests :
  Forall (λ r, is_Ok (fetch_step [] r)) requests →
  ∀ acc, USPS.track_loop session_get acc requests
         = (acc ++ (requests ≫= entries_of session_get), []).
Proof.
  induction 1 as [|r rs [items Hr] _ IH]; intros acc; cbn.
  - rewrite app_nil_r. reflexivity.
  - rewrite usps_fetch_step_acc, Hr. rewrite IH.
    unfold entries_of at 2. rewrite Hr. cbn. rewrite app_assoc. reflexivity.
Qed.

(** At the first failing request the loop stops with what it has. *)
Lemma usps_track_loop_fail pre request post :
  Forall (λ r, is_Ok (fetch_step [] r)) pre →
  raises (fetch_step [] request) →
  ∀ acc, USPS.track_loop session_get acc (pre ++ request :: post)
         = (acc ++ (pre ≫= entries_of session_get), [FailedAtRequest request]).
Proof.
  intros Hpre [e Hr]. induction Hpre as [|r rs [items Hi] _ IH]; intros acc; cbn.
  - rewrite usps_fetch_step_acc, Hr, app_nil_r. reflexivity.
  - rewrite usps_fetch_step_acc, Hi. rewrite IH.
    unfold entries_of at 2. rewrite Hi. cbn. rewrite app_assoc. reflexivity.
Qed.
End UspsFetch.

(** ** Claims *)

(** C8: for a list of [n] items and a chunk size [k > 0], [chunk_list]
    returns [ceil (n / k)] chunks, each of length [k] except possibly the
    last (of length [n mod k] when that is not zero), whose concatenation in
    order is the list; [track_usps] splits its tracking list with the fixed
    chunk size 10 and builds one request per chunk. *)
Theorem chunk_list_spec {A : Type} (whole_list : list A) (chunk_size : Z)
    (usps_username company_name ip_address : string)
    (session_get : string → result json)
    (tracking_list : list string) (simplify : bool) :
  0 < chunk_size →
  (let n := length whole_list in
   let k := Z.to_nat chunk_size in
   ∃ chunks,
     chunk_list chunk_size whole_list = Ok chunks
     ∧ length chunks = ceil_div n k
     ∧ (∀ i c, chunks !! i = Some c →
          length c = if decide (S i = length chunks ∧ (n mod k)%nat ≠ O)
                     then (n mod k)%nat else k)
     ∧ concat chunks = whole_list)
  ∧ (∃ tracking_chunks,
       chunk_list 10 tracking_list = Ok tracking_chunks
       ∧ length tracking_chunks = ceil_div (length tracking_list) 10
       ∧ concat tracking_chunks = tracking_list
       ∧ let usps_requests :=
           USPS._create_usps_requests usps_username company_name ip_address
             tracking_chunks in
         length usps_requests = length tracking_chunks
         ∧ USPS.track_usps usps_username company_name ip_address session_get
             tracking_list simplify
           = let fetched := USPS._track_usps session_get usps_requests in
             if simplify
             then stan_tracking_results ← USPS._simplify_usps fetched.1;
                  Ok (Simplified stan_tracking_results, fetched.2)
             else Ok (Raw fetched.1, fetched.2)).
Proof.
  intros Hpos. split.
  - apply chunk_list_chunks, Hpos.
  - destruct (chunk_list_chunks tracking_list 10 ltac:(lia))
      as (chunks & Hchunks & Hlen & _ & Hconcat).
    exists chunks. split; [exact Hchunks|]. split; [exact Hlen|].
    split; [exact Hconcat|]. cbv zeta. split.
    + unfold USPS._create_usps_requests. apply length_map.
    + unfold USPS.track_usps. rewrite Hchunks. reflexivity.
Qed.

Lemma chunk_list_spec_witness :
  ∃ chunks,
    chunk_list 2 ["a"; "b"; "c"; "d"; "e"] = Ok chunks
    ∧ length chunks = 3%nat
    ∧ concat chunks = ["a"; "b"; "c"; "d"; "e"].
Proof.
  destruct (chunk_list_spec ["a"; "b"; "c"; "d"; "e"] 2 "user" "company"
              "127.0.0.1" (λ _, Raise TransportError) ["9400"] true)
    as [(chunks & Hchunks & Hlen & _ & Hconcat) _]; [lia|].
  exists chunks. split; [exact Hchunks|]. split; [exact Hlen | exact Hconcat].
Defined.

(** C9: [track_ups] on the empty tracking list does not return the empty
    list: the fail rate divides by the number of payloads, zero, and the
    fetch raises [ZeroDivisionError]. *)
Theorem track_ups_empty_raises
    (ups_username ups_password ups_license : string)
    (session_get : json → result json) (simplify : bool) :
  UPS.track_ups ups_username ups_password ups_license session_get [] simplify
  = Raise ZeroDivisionError.
Proof. reflexivity. Qed.

(** C10: every record either normaliser emits has exactly the five fields
    [trackingNumber], [trackingStatus], [checkpointDate],
    [checkpointLocation] and [checkpointStatusMessage], each present
    (possibly with the value [None]). *)
Theorem normalized_record_fields (tracking_results : list json)
    (out : list (gmap string value)) :
  UPS._simplify_ups tracking_results = Ok out
  ∨ USPS._simplify_usps tracking_results = Ok out →
  Forall (λ r, dom r = record_fields
               ∧ ∀ field, field ∈ record_fields → is_Some (r !! field)) out.
Proof.
  intros H.
  assert (Forall (λ r, dom r = record_fields) out) as Hdom.
  { destruct H as [H|H];
      [eapply ups_simplify_fields | eapply usps_simplify_fields]; exact H. }
  eapply Forall_impl; [exact Hdom|]. cbn. intros r Hr. split; [exact Hr|].
  intros field Hfield. apply elem_of_dom. rewrite Hr. exact Hfield.
Qed.

Lemma normalized_record_fields_witness :
  ∃ r, UPS._simplify_ups
         [Samples.ups_response "1Z0000000000000001"
            (Samples.package (Samples.activity "D" "20240101" "093000"))]
       = Ok [r]
       ∧ dom r = record_fields.
Proof.
  eexists. split; [vm_compute; reflexivity|].
  refine (proj1 (Forall_inv (normalized_record_fields
    [Samples.ups_response "1Z0000000000000001"
       (Samples.package (Samples.activity "D" "20240101" "093000"))]
    _ _))).
  left. vm_compute. reflexivity.
Defined.

(** C5, as the code has it: a fetch of Carrier A over at least one payload
    in which every request is answered computes
    [fail_rate = failed_count / total_count] after the last payload, prints
    the warning if and only if [fail_rate > 0.05], and returns every response
    without fault: 2 faults in 20 requests print it, 1 fault in 20 does not.
    The fetcher of Carrier B computes no fail rate: a batch whose requests
    all succeed prints nothing. *)
Theorem ups_fail_rate_warning
    (ups_username ups_password ups_license : string)
    (session_get : json → result json)
    (tracking_list : list string) (resps : list (list (string * json))) :
  tracking_list ≠ [] →
  Forall2
    (λ tn d,
       session_get (UPS.payload ups_username ups_password ups_license tn)
       = Ok (JDict d))
    tracking_list resps →
  let responses := map JDict resps in
  let failed_count := length (List.filter has_fault responses) in
  let total_count := length tracking_list in
  let fail_rate :=
    PrimFloat.div (float_of_len failed_count) (float_of_len total_count) in
  UPS._track_ups session_get
    (UPS._create_ups_request ups_username ups_password ups_license
       tracking_list)
  = Ok (List.filter (λ r, negb (has_fault r)) responses,
        if PrimFloat.ltb 0.05 fail_rate
        then [FailRateWarning fail_rate] else [])
  ∧ (total_count = 20%nat → failed_count = 2%nat →
     ∃ results,
       UPS._track_ups session_get
         (UPS._create_ups_request ups_username ups_password ups_license
            tracking_list)
       = Ok (results, [FailRateWarning fail_rate]))
  ∧ (total_count = 20%nat → failed_count = 1%nat →
     ∃ results,
       UPS._track_ups session_get
         (UPS._create_ups_request ups_username ups_password ups_license
            tracking_list)
       = Ok (results, []))
  ∧ (∀ (usps_get : string → result json) (usps_requests : list string),
       Forall (λ r, is_Ok (USPS.fetch_step usps_get [] r)) usps_requests →
       USPS._track_usps usps_get usps_requests
       = (usps_requests ≫= entries_of usps_get, [])).
Proof.
  intros Hne Hresps responses failed_count total_count fail_rate.
  assert (UPS._track_ups session_get
            (UPS._create_ups_request ups_username ups_password ups_license
               tracking_list)
          = Ok (List.filter (λ r, negb (has_fault r)) responses,
                if PrimFloat.ltb 0.05 fail_rate
                then [FailRateWarning fail_rate] else [])) as Hfetch.
  { unfold UPS._track_ups, UPS._create_ups_request.
    destruct (ups_fetch_loop _ _ _ _ _ _ Hresps ([], []))
      as (failed & -> & Hlen).
    rewrite bind_Ok_l. cbn [fst snd app]. rewrite length_map, Hlen.
    fold responses failed_count total_count.
    unfold py_truediv.
    destruct total_count as [|n] eqn:E.
    { destruct tracking_list; [contradiction | discriminate E]. }
    rewrite bind_Ok_l. fold fail_rate.
    destruct (PrimFloat.ltb 0.05 fail_rate); reflexivity. }
  split; [exact Hfetch|]. rewrite Hfetch. split; [|split].
  - intros Ht Hf. eexists.
    replace (PrimFloat.ltb 0.05 fail_rate) with true; [reflexivity|].
    subst fail_rate. rewrite Ht, Hf. vm_compute. reflexivity.
  - intros Ht Hf. eexists.
    replace (PrimFloat.ltb 0.05 fail_rate) with false; [reflexivity|].
    subst fail_rate. rewrite Ht, Hf. vm_compute. reflexivity.
  - intros usps_get usps_requests Hok. unfold USPS._track_usps.
    apply (usps_track_loop_ok usps_get usps_requests Hok []).
Qed.

Lemma ups_fail_rate_warning_witness :
  ∃ results rate,
    UPS._track_ups (Samples.ups_server ["1Z03"; "1Z17"] [])
      (UPS._create_ups_request "user" "password" "license" Samples.batch20)
    = Ok (results, [FailRateWarning rate])
    ∧ length results = 18%nat.
Proof.
  pose (server := Samples.ups_server ["1Z03"; "1Z17"] []).
  pose (resps :=
          map (λ tn, match server (UPS.payload "user" "password" "license" tn)
                     with
                     | Ok (JDict d) => d
                     | _ => []
                     end) Samples.batch20).
  assert (Samples.batch20 ≠ []) as Hne by discriminate.
  assert (Forall2
            (λ tn d, server (UPS.payload "user" "password" "license" tn)
                     = Ok (JDict d))
            Samples.batch20 resps) as Hresps.
  { unfold resps, Samples.batch20. cbn [map].
    repeat (constructor; [vm_compute; reflexivity|]). constructor. }
  destruct (ups_fail_rate_warning "user" "password" "license" server
              Samples.batch20 resps Hne Hresps) as (Heq & _).
  fold server. rewrite Heq. vm_compute. eexists _, _. split; reflexivity.
Defined.

(** C5, as stated, fails for Carrier B: in a batch of 20 requests of which 2
    are answered with errors only, the fetcher completes and prints
    nothing. *)
Lemma usps_no_fail_rate_warning :
  let usps_get := Samples.usps_server ["request03"; "request17"] [] in
  length Samples.requests20 = 20%nat
  ∧ length (List.filter (λ r, Samples.reports_error (usps_get r))
              Samples.requests20) = 2%nat
  ∧ length (USPS._track_usps usps_get Samples.requests20).1 = 40%nat
  ∧ (USPS._track_usps usps_get Samples.requests20).2 = [].
Proof. vm_compute. repeat split; reflexivity. Qed.

(** C7: when a request of Carrier B's batch raises, the loop stops and the
    fetcher returns exactly the entries accumulated before it and prints the
    request in flight; the loop of Carrier A has no guard and the exception
    of a request reaches the caller. *)
Theorem transport_failure_handling
    (usps_get : string → result json) (pre post : list string)
    (request : string)
    (ups_get : json → result json) (ups_pre ups_post : list json)
    (ups_request : json) (e : exn) :
  Forall (λ r, is_Ok (USPS.fetch_step usps_get [] r)) pre →
  raises (USPS.fetch_step usps_get [] request) →
  Forall (λ r, is_Ok (UPS.fetch_step ups_get ([], []) r)) ups_pre →
  ups_get ups_request = Raise e →
  USPS._track_usps usps_get (pre ++ request :: post)
  = (pre ≫= entries_of usps_get, [FailedAtRequest request])
  ∧ USPS._track_usps usps_get pre = (pre ≫= entries_of usps_get, [])
  ∧ UPS._track_ups ups_get (ups_pre ++ ups_request :: ups_post) = Raise e.
Proof.
  intros Hpre Hfail Hups Hraise. split; [|split].
  - apply (usps_track_loop_fail usps_get pre request post Hpre Hfail []).
  - apply (usps_track_loop_ok usps_get pre Hpre []).
  - unfold UPS._track_ups.
    destruct (ups_fetch_loop_ok ups_get ups_pre Hups ([], [])) as [st Hst].
    rewrite (for_each_raise _ _ st ups_pre ups_request ups_post e Hst).
    + reflexivity.
    + apply ups_fetch_step_raise, Hraise.
Qed.

Lemma transport_failure_handling_witness :
  USPS._track_usps (Samples.usps_server [] ["request03"]) Samples.requests20
  = (["request01"; "request02"]
       ≫= entries_of (Samples.usps_server [] ["request03"]),
     [FailedAtRequest "request03"])
  ∧ UPS._track_ups (Samples.ups_server [] ["1Z03"])
      (UPS._create_ups_request "user" "password" "license" Samples.batch20)
    = Raise TransportError.
Proof.
  pose (usps_get := Samples.usps_server [] ["request03"]).
  pose (ups_get := Samples.ups_server [] ["1Z03"]).
  destruct (transport_failure_handling usps_get
              ["request01"; "request02"] (drop 3 Samples.requests20)
              "request03" ups_get
              (UPS._create_ups_request "user" "password" "license"
                 ["1Z01"; "1Z02"])
              (UPS._create_ups_request "user" "password" "license"
                 (drop 3 Samples.batch20))
              (UPS.payload "user" "password" "license" "1Z03")
              TransportError) as (Husps & _ & Hups).
  - repeat constructor; eexists; vm_compute; reflexivity.
  - eexists. vm_compute. reflexivity.
  - repeat constructor; eexists; vm_compute; reflexivity.
  - vm_compute. reflexivity.
  - split; [exact Husps | exact Hups].
Defined.

(** ** Timestamps *)

Lemma ups_build_record_parse_failure tracking_number package_activity
    date time e :
  py_get package_activity "Date" = Ok (JStr date) →
  py_get package_activity "Time" = Ok (JStr time) →
  strptime (JStr (date +:+ time)) ups_format = Raise e →
  UPS.build_record tracking_number package_activity = Raise e.
Proof.
  intros Hdate Htime Hparse. unfold UPS.build_record.
  rewrite Hdate, bind_Ok_l, Htime, bind_Ok_l. cbn [py_add].
  rewrite bind_Ok_l, Hparse. reflexivity.
Qed.

Lemma usps_checkpoint_date_parse_failure d track_summary date time e :
  py_get (JDict d) "TrackSummary" = Ok track_summary →
  py_get track_summary "EventDate" = Ok (JStr date) →
  py_get track_summary "EventTime" = Ok (JStr time) →
  strptime (JStr ((date +:+ " ") +:+ time)) usps_format = Raise e →
  USPS.checkpoint_date (JDict d) = VNone.
Proof.
  intros Hsummary Hdate Htime Hparse. unfold USPS.checkpoint_date.
  rewrite Hsummary, bind_Ok_l, Htime, bind_Ok_l, Hdate, bind_Ok_l.
  change (py_add (JStr date) (JStr " ")) with (Ok (JStr (date +:+ " "))).
  rewrite bind_Ok_l.
  change (py_add (JStr (date +:+ " ")) (JStr time))
    with (Ok (JStr ((date +:+ " ") +:+ time))).
  rewrite bind_Ok_l, Hparse. reflexivity.
Qed.

Ltac by_cases_below n :=
  repeat (destruct n as [|n]; [vm_compute; eexists; reflexivity|]); lia.

Lemma rmatch_month (n : nat) (rest : string) :
  (1 ≤ n ≤ 12)%nat →
  ∃ others, rmatch (directive_regex dm) (two_digits n +:+ rest)
            = (two_digits n, rest) :: others.
Proof. intros H. destruct n as [|n]; [lia|]. by_cases_below n. Qed.

Lemma rmatch_day (n : nat) (rest : string) :
  (1 ≤ n ≤ 31)%nat →
  ∃ others, rmatch (directive_regex dd) (two_digits n +:+ rest)
            = (two_digits n, rest) :: others.
Proof. intros H. destruct n as [|n]; [lia|]. by_cases_below n. Qed.

Lemma rmatch_hour (n : nat) (rest : string) :
  (n ≤ 23)%nat →
  ∃ others, rmatch (directive_regex dH) (two_digits n +:+ rest)
            = (two_digits n, rest) :: others.
Proof. intros H. by_cases_below n. Qed.

Lemma rmatch_minute (n : nat) (rest : string) :
  (n ≤ 59)%nat →
  ∃ others, rmatch (directive_regex dM) (two_digits n +:+ rest)
            = (two_digits n, rest) :: others.
Proof. intros H. by_cases_below n. Qed.

Lemma rmatch_second (n : nat) (rest : string) :
  (n ≤ 59)%nat →
  ∃ others, rmatch (directive_regex dS) (two_digits n +:+ rest)
            = (two_digits n, rest) :: others.
Proof. intros H. by_cases_below n. Qed.

Lemma py_int_two_digits (n : nat) : (n ≤ 59)%nat → py_int (two_digits n) = n.
Proof.
  intros H.
  repeat (destruct n as [|n]; [vm_compute; reflexivity|]); lia.
Qed.

Lemma digit_char_is_digit k : (k < 10)%nat → is_digit (digit_char k) = true.
Proof. intros H. repeat (destruct k as [|k]; [reflexivity|]). lia. Qed.

Lemma digit_char_value k :
  (k < 10)%nat → (nat_of_ascii (digit_char k) - 48)%nat = k.
Proof. intros H. repeat (destruct k as [|k]; [reflexivity|]). lia. Qed.

Lemma rmatch_four_chars c1 c2 c3 c4 rest :
  is_digit c1 = true → is_digit c2 = true →
  is_digit c3 = true → is_digit c4 = true →
  rmatch (directive_regex dY)
    (String c1 (String c2 (String c3 (String c4 rest))))
  = [(String c1 (String c2 (String c3 (String c4 EmptyString))), rest)].
Proof.
  intros H1 H2 H3 H4. cbn [directive_regex rmatch match_one].
  rewrite H1. cbn. rewrite H2. cbn. rewrite H3. cbn. rewrite H4.
  reflexivity.
Qed.

Lemma rmatch_year (n : nat) (rest : string) :
  (n < 10 * 1000)%nat →
  rmatch (directive_regex dY) (four_digits n +:+ rest)
  = [(four_digits n, rest)].
Proof.
  intros H. unfold four_digits.
  assert (n / 1000 < 10)%nat by (apply Nat.Div0.div_lt_upper_bound; lia).
  pose proof (Nat.mod_upper_bound (n / 100) 10 ltac:(lia)).
  pose proof (Nat.mod_upper_bound (n / 10) 10 ltac:(lia)).
  pose proof (Nat.mod_upper_bound n 10 ltac:(lia)).
  change (String ?a (String ?b (String ?c (String ?d ""))) +:+ rest)
    with (String a (String b (String c (String d rest)))).
  apply rmatch_four_chars; apply digit_char_is_digit; assumption.
Qed.

Lemma py_int_four_digits (n : nat) :
  (n < 10 * 1000)%nat → py_int (four_digits n) = n.
Proof.
  intros H. unfold four_digits, py_int.
  assert (n / 1000 < 10)%nat by (apply Nat.Div0.div_lt_upper_bound; lia).
  pose proof (Nat.mod_upper_bound (n / 100) 10 ltac:(lia)).
  pose proof (Nat.mod_upper_bound (n / 10) 10 ltac:(lia)).
  pose proof (Nat.mod_upper_bound n 10 ltac:(lia)).
  rewrite !digit_char_is_digit by assumption.
  rewrite !digit_char_value by assumption.
  pose proof (Nat.div_mod_eq n 10).
  pose proof (Nat.div_mod_eq (n / 10) 10).
  pose proof (Nat.div_mod_eq (n / 100) 10).
  replace (n / 10 / 10)%nat with (n / 100)%nat in *
    by (rewrite Nat.Div0.div_div; reflexivity).
  replace (n / 100 / 10)%nat with (n / 1000)%nat in *
    by (rewrite Nat.Div0.div_div; reflexivity).
  lia.
Qed.

(** The first match of a format that starts with a directive. *)
Lemma pmatch_directive d items s text rest others found rest' others' :
  rmatch (directive_regex d) s = (text, rest) :: others →
  pmatch items rest = (found, rest') :: others' →
  ∃ others'', pmatch (Directive d :: items) s
              = ((d, text) :: found, rest') :: others''.
Proof.
  intros Hd Hitems. cbn [pmatch]. rewrite Hd. cbn. rewrite Hitems. cbn.
  eexists. reflexivity.
Qed.

Tactic Notation "cases_upto" integer(k) ident(n) tactic3(tac) :=
  do k (destruct n as [|n]; [tac|]); lia.

Lemma rmatch_month_name (m : nat) (rest : string) :
  (1 ≤ m ≤ 12)%nat →
  rmatch (directive_regex dB) (month_name m +:+ rest)
  = [(month_name m, rest)].
Proof.
  intros H. destruct m as [|m]; [lia|].
  cases_upto 12 m (vm_compute; reflexivity).
Qed.

Lemma month_name_index (m : nat) :
  (1 ≤ m ≤ 12)%nat → S (index_of (lower (month_name m)) f_month) = m.
Proof.
  intros H. destruct m as [|m]; [lia|].
  cases_upto 12 m (vm_compute; reflexivity).
Qed.

Lemma rmatch_spaces_decimal (n : nat) (rest : string) :
  (1 ≤ n ≤ 31)%nat →
  rmatch RSpaces (String " " (decimal n +:+ rest))
  = [(" ", decimal n +:+ rest)].
Proof.
  intros H. destruct n as [|n]; [lia|].
  cases_upto 31 n (vm_compute; reflexivity).
Qed.

Lemma rmatch_decimal_day (n : nat) (rest : string) :
  (1 ≤ n ≤ 31)%nat →
  ∃ others, rmatch (directive_regex dd) (decimal n +:+ String "," rest)
            = (decimal n, String "," rest) :: others.
Proof.
  intros H. destruct n as [|n]; [lia|].
  cases_upto 31 n (vm_compute; eexists; reflexivity).
Qed.

Lemma py_int_decimal (n : nat) : (n ≤ 31)%nat → py_int (decimal n) = n.
Proof. intros H. cases_upto 32 n (vm_compute; reflexivity). Qed.

Lemma is_space_digit_char k : (k < 10)%nat → is_space (digit_char k) = false.
Proof. intros H. cases_upto 10 k (reflexivity). Qed.

Lemma rmatch_spaces_year (n : nat) (rest : string) :
  (n < 10 * 1000)%nat →
  rmatch RSpaces (String " " (four_digits n +:+ rest))
  = [(" ", four_digits n +:+ rest)].
Proof.
  intros H. unfold four_digits.
  assert (n / 1000 < 10)%nat by (apply Nat.Div0.div_lt_upper_bound; lia).
  change (String ?a (String ?b (String ?c (String ?d ""))) +:+ rest)
    with (String a (String b (String c (String d rest)))).
  cbn [rmatch match_spaces]. change (is_space " ") with true. cbv iota.
  rewrite is_space_digit_char by assumption. reflexivity.
Qed.

Lemma rmatch_spaces_hour (h : nat) (rest : string) :
  (h ≤ 23)%nat →
  rmatch RSpaces (String " " (decimal (hour12 h) +:+ rest))
  = [(" ", decimal (hour12 h) +:+ rest)].
Proof. intros H. cases_upto 24 h (vm_compute; reflexivity). Qed.

Lemma rmatch_hour12 (h : nat) (rest : string) :
  (h ≤ 23)%nat →
  ∃ others, rmatch (directive_regex dI)
              (decimal (hour12 h) +:+ String ":" rest)
            = (decimal (hour12 h), String ":" rest) :: others.
Proof.
  intros H. cases_upto 24 h (vm_compute; eexists; reflexivity).
Qed.

Lemma rmatch_spaces_am_pm (h : nat) :
  rmatch RSpaces (String " " (am_pm h)) = [(" ", am_pm h)]
  ∧ rmatch (directive_regex dp) (am_pm h) = [(am_pm h, "")].
Proof. unfold am_pm. destruct (h <? 12)%nat; split; reflexivity. Qed.

(** The hour of the day from the 12-hour clock, as [_strptime] converts it. *)
Lemma hour12_conversion (h : nat) (dt : datetime) found :
  (h ≤ 23)%nat →
  group dp found = Some (am_pm h) →
  convert_group found dt (dI, decimal (hour12 h))
  = mk_datetime (year dt) (month dt) (day dt) h (minute dt) (second dt).
Proof.
  intros H Hp. unfold convert_group. rewrite Hp. cbn [default].
  cases_upto 24 h (vm_compute; reflexivity).
Qed.

Lemma pmatch_whitespace items s rest found rest' others' :
  rmatch RSpaces s = [(" ", rest)] →
  pmatch items rest = (found, rest') :: others' →
  ∃ others'', pmatch (Whitespace :: items) s = (found, rest') :: others''.
Proof.
  intros Hs Hitems. cbn [pmatch]. rewrite Hs. cbn. rewrite Hitems. cbn.
  eexists. reflexivity.
Qed.

Lemma pmatch_literal c items rest found rest' others' :
  pmatch items rest = (found, rest') :: others' →
  ∃ others'', pmatch (Literal c :: items) (String c rest)
              = (found, rest') :: others''.
Proof.
  intros Hitems. cbn [pmatch rmatch match_one].
  rewrite Ascii.eqb_refl. cbn. rewrite Hitems. cbn. eexists. reflexivity.
Qed.

Lemma valid_datetime_bounds y mo d h mi s :
  valid_datetime (mk_datetime y mo d h mi s) = true →
  ((1 ≤ y < 10 * 1000) ∧ (1 ≤ mo ≤ 12) ∧ (1 ≤ d ≤ 31)
   ∧ h ≤ 23 ∧ mi ≤ 59 ∧ s ≤ 59)%nat.
Proof.
  intros Hvalid. unfold valid_datetime in Hvalid.
  cbn [year month day hour minute second] in Hvalid.
  repeat (apply andb_prop in Hvalid as [Hvalid ?]).
  repeat match goal with
  | H : (_ <=? _)%nat = true |- _ => apply Nat.leb_le in H
  end.
  assert (9999 = 9 * 1000 + 999)%nat as Hbig by reflexivity.
  rewrite Hbig in *.
  assert (days_in_month y mo ≤ 31)%nat.
  { unfold days_in_month.
    do 12 (destruct mo as [|mo]; [try destruct (is_leap y); lia|]). lia. }
  lia.
Qed.

(** Every valid [datetime], written as Carrier A writes it, is read back by
    the parse of [_simplify_ups]. *)
Lemma ups_strptime_round_trip (dt : datetime) :
  valid_datetime dt = true →
  strptime (JStr (ups_timestamp dt)) ups_format = Ok dt.
Proof.
  destruct dt as [y mo d h mi s]. intros Hvalid.
  destruct (valid_datetime_bounds _ _ _ _ _ _ Hvalid)
    as (Hy & Hmo & Hd & Hh & Hmi & Hs).
  unfold ups_timestamp, strptime, strptime_str, ups_format.
  cbn [year month day hour minute second].
  destruct (rmatch_second s "" Hs) as (o6 & H6).
  destruct (rmatch_minute mi (two_digits s) Hmi) as (o5 & H5).
  destruct (rmatch_hour h (two_digits mi +:+ two_digits s) Hh) as (o4 & H4).
  destruct (rmatch_day d (two_digits h +:+ two_digits mi +:+ two_digits s) Hd)
    as (o3 & H3).
  destruct (rmatch_month mo
              (two_digits d +:+ two_digits h +:+ two_digits mi +:+ two_digits s)
              Hmo) as (o2 & H2).
  pose proof (rmatch_year y
                (two_digits mo +:+ two_digits d +:+ two_digits h
                   +:+ two_digits mi +:+ two_digits s) ltac:(lia)) as H1.
  assert (pmatch [] "" = [([], "")]) as H0 by reflexivity.
  destruct (pmatch_directive dS [] _ _ _ _ _ _ _ H6 H0) as (p6 & P6).
  destruct (pmatch_directive dM _ _ _ _ _ _ _ _ H5 P6) as (p5 & P5).
  destruct (pmatch_directive dH _ _ _ _ _ _ _ _ H4 P5) as (p4 & P4).
  destruct (pmatch_directive dd _ _ _ _ _ _ _ _ H3 P4) as (p3 & P3).
  destruct (pmatch_directive dm _ _ _ _ _ _ _ _ H2 P3) as (p2 & P2).
  destruct (pmatch_directive dY _ _ _ _ _ _ _ _ H1 P2) as (p1 & P1).
  rewrite P1.
  cbn [negb String.eqb fold_left convert_group
       year month day hour minute second].
  rewrite py_int_four_digits by lia.
  rewrite !py_int_two_digits by lia.
  rewrite Hvalid. reflexivity.
Qed.

(** Every valid [datetime] without seconds, written as Carrier B writes its
    date and time, is read back by the parse of [_simplify_usps]. *)
Lemma usps_strptime_round_trip (dt : datetime) :
  valid_datetime dt = true →
  second dt = 0%nat →
  strptime (JStr ((usps_date_text dt +:+ " ") +:+ usps_time_text dt)) usps_format
  = Ok dt.
Proof.
  destruct dt as [y mo d h mi s]. intros Hvalid Hs0.
  cbn [second] in Hs0. subst s.
  destruct (valid_datetime_bounds _ _ _ _ _ _ Hvalid)
    as (Hy & Hmo & Hd & Hh & Hmi & _).
  unfold usps_date_text, usps_time_text, strptime, strptime_str, usps_format.
  cbn [year month day hour minute second].
  rewrite !append_assoc.
  destruct (rmatch_spaces_am_pm h) as [Hsp Hp].
  assert (pmatch [] "" = [([], "")]) as P0 by reflexivity.
  destruct (pmatch_directive dp [] _ _ _ _ _ _ _ Hp P0) as (q12 & P12).
  destruct (pmatch_whitespace _ _ _ _ _ _ Hsp P12) as (q11 & P11).
  destruct (rmatch_minute mi (String " " (am_pm h)) Hmi) as (o10 & H10).
  destruct (pmatch_directive dM _ _ _ _ _ _ _ _ H10 P11) as (q10 & P10).
  destruct (pmatch_literal ":" _ _ _ _ _ P10) as (q9 & P9).
  destruct (rmatch_hour12 h (two_digits mi +:+ String " " (am_pm h)) Hh)
    as (o8 & H8).
  destruct (pmatch_directive dI _ _ _ _ _ _ _ _ H8 P9) as (q8 & P8).
  destruct (pmatch_whitespace _ _ _ _ _ _
              (rmatch_spaces_hour h _ Hh) P8) as (q7 & P7).
  destruct (pmatch_directive dY _ _ _ _ _ _ _ _
              (rmatch_year y _ ltac:(lia)) P7) as (q6 & P6).
  destruct (pmatch_whitespace _ _ _ _ _ _
              (rmatch_spaces_year y _ ltac:(lia)) P6) as (q5 & P5).
  destruct (pmatch_literal "," _ _ _ _ _ P5) as (q4 & P4).
  destruct (rmatch_decimal_day d
              (String " "
                 (four_digits y +:+
                  String " "
                    (decimal (hour12 h) +:+
                     String ":" (two_digits mi +:+ String " " (am_pm h)))))
              Hd) as (o3 & H3).
  destruct (pmatch_directive dd _ _ _ _ _ _ _ _ H3 P4) as (q3 & P3).
  destruct (pmatch_whitespace _ _ _ _ _ _
              (rmatch_spaces_decimal d _ Hd) P3) as (q2 & P2).
  destruct (pmatch_directive dB _ _ _ _ _ _ _ _
              (rmatch_month_name mo _ Hmo) P2) as (q1 & P1).
  match goal with
  | |- context [pmatch ?items ?text] =>
      match type of P1 with
      | _ = ?matches =>
          assert (pmatch items text = matches) as -> by exact P1
      end
  end.
  cbn [negb String.eqb fold_left].
  set (found := [(dB, month_name mo); (dd, decimal d); (dY, four_digits y);
                 (dI, decimal (hour12 h)); (dM, two_digits mi);
                 (dp, am_pm h)]).
  rewrite (hour12_conversion h _ found Hh eq_refl).
  cbn [convert_group year month day hour minute second].
  rewrite month_name_index by assumption.
  rewrite py_int_decimal by lia.
  rewrite py_int_four_digits by lia.
  rewrite py_int_two_digits by lia.
  rewrite Hvalid. reflexivity.
Qed.

(** The [checkpointDate] of a record of Carrier A is the parse of the date
    and the time of its activity, joined. *)
Lemma ups_build_record_date tracking_number package_activity r :
  UPS.build_record tracking_number package_activity = Ok r →
  ∃ text dt,
    ups_event_text package_activity = Ok text
    ∧ strptime text ups_format = Ok dt
    ∧ r !! "checkpointDate" = Some (VDatetime dt).
Proof.
  unfold UPS.build_record, ups_event_text. intros H.
  do 7 bind_inv H. injection H as <-.
  exists a1, a2. split.
  - rewrite Ha, bind_Ok_l, Ha0, bind_Ok_l. exact Ha1.
  - split; [exact Ha2|].
    do 4 (rewrite lookup_insert_ne by discriminate). apply lookup_insert_eq.
Qed.

(** The date of an entry of Carrier B is the parse of its event date, a
    space and its event time, and [None] when any step of that raises. *)
Lemma usps_checkpoint_date_parse i :
  USPS.checkpoint_date i
  = match usps_event_text i ≫= λ text, strptime text usps_format with
    | Ok dt => VDatetime dt
    | Raise _ => VNone
    end.
Proof.
  unfold USPS.checkpoint_date, usps_event_text.
  destruct (py_get i "TrackSummary") as [track_summary|e]; [|reflexivity].
  rewrite !bind_Ok_l.
  destruct (py_get track_summary "EventTime") as [event_time|e];
    [|reflexivity].
  rewrite !bind_Ok_l.
  destruct (py_get track_summary "EventDate") as [event_date|e];
    [|reflexivity].
  rewrite !bind_Ok_l.
  destruct (py_add event_date (JStr " ")) as [with_space|e]; [|reflexivity].
  rewrite !bind_Ok_l.
  destruct (py_add with_space event_time) as [event_dt|e]; [|reflexivity].
  rewrite !bind_Ok_l.
  destruct (strptime event_dt usps_format) as [parsed|e]; reflexivity.
Qed.

Lemma usps_simplify_entry_date i r :
  USPS.simplify_entry i = Ok (Some r) →
  r !! "checkpointDate" = Some (USPS.checkpoint_date i).
Proof.
  unfold USPS.simplify_entry. intros H.
  destruct (py_get i "@ID") as [tracking_number|e]; [|discriminate H].
  do 2 bind_inv H. injection H as <-.
  do 2 (rewrite lookup_insert_ne by discriminate). apply lookup_insert_eq.
Qed.

(** C6: the checkpoint timestamp of a record is the parse of the carrier's
    date and time joined (Carrier A: ["%Y%m%d%H%M%S"]; Carrier B, with a
    space between: ["%B %d, %Y %I:%M %p"]); the parse reads back every valid
    timestamp written in the carrier's format, so that ["20240101"],
    ["093000"] and ["January 1, 2024"], ["09:30 AM"] both give
    2024-01-01T09:30:00; a parse failure ends [_simplify_ups] with the
    exception, while [_simplify_usps] still emits the record, with
    [checkpointDate] set to [None]. *)
Theorem checkpoint_timestamp_parsing
    (pre post : list json) (st : option json * list (gmap string value))
    (resp tracking_number overall_activity package_activity : json)
    (ups_date ups_time : string) (e : exn)
    (d : list (string * json)) (track_summary category status : json)
    (usps_date usps_time : string) (e' : exn) :
  for_each UPS.simplify_step (None, []) pre = Ok st →
  UPS.select_activity st.1 resp
  = Ok (tracking_number, overall_activity, package_activity) →
  py_get package_activity "Date" = Ok (JStr ups_date) →
  py_get package_activity "Time" = Ok (JStr ups_time) →
  strptime (JStr (ups_date +:+ ups_time)) ups_format = Raise e →
  py_get (JDict d) "TrackSummary" = Ok track_summary →
  py_get track_summary "EventDate" = Ok (JStr usps_date) →
  py_get track_summary "EventTime" = Ok (JStr usps_time) →
  strptime (JStr ((usps_date +:+ " ") +:+ usps_time)) usps_format = Raise e' →
  py_get (JDict d) "StatusCategory" = Ok category →
  py_get_key USPS.usps_status_codes category = Ok status →
  (∃ r, UPS._simplify_ups
          [Samples.ups_response "1Z0000000000000001"
             (Samples.package (Samples.activity "D" "20240101" "093000"))]
        = Ok [r]
        ∧ r !! "checkpointDate" = Some (VDatetime new_year_0930))
  ∧ (∃ r, USPS._simplify_usps
            [Samples.track_info "9400100000000000000001" "Louisville" "KY"
               "Delivered" "January 1, 2024" "09:30 AM"]
          = Ok [r]
          ∧ r !! "checkpointDate" = Some (VDatetime new_year_0930))
  ∧ UPS._simplify_ups (pre ++ resp :: post) = Raise e
  ∧ (∃ r, USPS._simplify_usps [JDict d] = Ok [r]
          ∧ r !! "checkpointDate" = Some VNone)
  ∧ (∀ st0 resp0 st1,
       UPS.simplify_step st0 resp0 = Ok st1 →
       ∃ number activity chosen text dt r,
         UPS.select_activity st0.1 resp0 = Ok (number, activity, chosen)
         ∧ ups_event_text chosen = Ok text
         ∧ strptime text ups_format = Ok dt
         ∧ st1.2 = st0.2 ++ [r]
         ∧ r !! "checkpointDate" = Some (VDatetime dt))
  ∧ (∀ i r,
       USPS.simplify_entry i = Ok (Some r) →
       r !! "checkpointDate"
       = Some match usps_event_text i ≫= λ text, strptime text usps_format
              with
              | Ok dt => VDatetime dt
              | Raise _ => VNone
              end)
  ∧ (∀ date time, py_add (JStr date) (JStr time) = Ok (JStr (date +:+ time)))
  ∧ (∀ dt, valid_datetime dt = true →
           strptime (JStr (ups_timestamp dt)) ups_format = Ok dt)
  ∧ (∀ dt, valid_datetime dt = true → second dt = 0%nat →
           strptime (JStr ((usps_date_text dt +:+ " ")
                             +:+ usps_time_text dt)) usps_format
           = Ok dt).
Proof.
  intros Hpre Hsel Hdate Htime Hparse Hsummary Hdate' Htime' Hparse' Hcat Hst.
  repeat apply conj.
  - match goal with
    | |- ∃ r, ?f = _ ∧ _ => exists (match f with Ok [r] => r | _ => ∅ end)
    end.
    split; vm_compute; reflexivity.
  - match goal with
    | |- ∃ r, ?f = _ ∧ _ => exists (match f with Ok [r] => r | _ => ∅ end)
    end.
    split; vm_compute; reflexivity.
  - unfold UPS._simplify_ups.
    rewrite (for_each_raise _ _ st pre resp post e Hpre); [reflexivity|].
    unfold UPS.simplify_step. rewrite Hsel, bind_Ok_l. cbn [fst snd].
    rewrite (ups_build_record_parse_failure _ _ _ _ e Hdate Htime Hparse).
    reflexivity.
  - unfold USPS._simplify_usps. cbn [for_each].
    unfold USPS.simplify_step, USPS.simplify_entry.
    change (py_get (JDict d) "@ID") with
      (Ok (match assoc "@ID" d with Some v => v | None => JNull end)).
    cbv iota. rewrite Hcat, bind_Ok_l, Hst, !bind_Ok_l.
    rewrite (usps_checkpoint_date_parse_failure _ _ _ _ e'
               Hsummary Hdate' Htime' Hparse').
    eexists. split; [reflexivity|].
    rewrite lookup_insert_ne by discriminate.
    rewrite lookup_insert_ne by discriminate.
    apply lookup_insert_eq.
  - intros st0 resp0 st1 Hstep. unfold UPS.simplify_step in Hstep.
    do 2 bind_inv Hstep. injection Hstep as <-.
    destruct a as [[number activity] chosen]. cbn [fst snd] in *.
    destruct (ups_build_record_date _ _ _ Ha0) as (text & dt & Ht & Hp & Hr).
    exists number, activity, chosen, text, dt, a0. auto.
  - intros i r Hentry.
    rewrite (usps_simplify_entry_date i r Hentry).
    rewrite usps_checkpoint_date_parse. reflexivity.
  - reflexivity.
  - apply ups_strptime_round_trip.
  - apply usps_strptime_round_trip.
Qed.

Lemma checkpoint_timestamp_parsing_witness :
  UPS._simplify_ups
    [Samples.ups_response "1Z0000000000000001"
       (Samples.package (Samples.activity "D" "2024-01-01" "093000"))]
  = Raise ValueError
  ∧ (∃ r, USPS._simplify_usps
            [Samples.track_info "9400100000000000000001" "Louisville" "KY"
               "Delivered" "Jan 1, 2024" "09:30 AM"]
          = Ok [r]
          ∧ r !! "checkpointDate" = Some VNone).
Proof.
  pose (activity := Samples.activity "D" "2024-01-01" "093000").
  pose (resp := Samples.ups_response "1Z0000000000000001"
                  (Samples.package activity)).
  pose (summary :=
          JDict [("EventTime", JStr "09:30 AM"); ("EventDate", JStr "Jan 1, 2024");
                 ("Event", JStr "Event description");
                 ("EventCity", JStr "Louisville"); ("EventState", JStr "KY")]).
  destruct (checkpoint_timestamp_parsing [] [] (None, []) resp
              (JStr "1Z0000000000000001") activity activity
              "2024-01-01" "093000" ValueError
              [("@ID", JStr "9400100000000000000001");
               ("TrackSummary", summary);
               ("Status", JStr "Status text");
               ("StatusCategory", JStr "Delivered");
               ("StatusSummary", JStr "Status summary")]
              summary (JStr "Delivered") (JStr "Delivered")
              "Jan 1, 2024" "09:30 AM" ValueError)
    as (_ & _ & Hups & Husps & _); try (vm_compute; reflexivity).
  split; [exact Hups | exact Husps].
Defined.

(** ** Multi-package resolution *)

Lemma status_rank_table :
  map (λ code, UPS.status_rank_of (JStr code))
    ["X"; "RS"; "NA"; "MV"; "M"; "P"; "I"; "O"; "D"]
  = [9; 8; 7; 6; 5; 4; 3; 2; 1].
Proof. reflexivity. Qed.

Lemma status_rank_unknown code :
  code ∉ ["X"; "RS"; "NA"; "MV"; "M"; "P"; "I"; "O"; "D"] →
  UPS.status_rank_of (JStr code) = 0.
Proof.
  intros Hnot. unfold UPS.status_rank_of, UPS.ups_status_codes.
  cbn [py_lookup_key py_getitem assoc].
  repeat match goal with
  | |- context [String.eqb code ?c] =>
      destruct (String.eqb_spec code c) as [->|_];
      [exfalso; apply Hnot; set_solver|]
  end.
  reflexivity.
Qed.

Lemma rank_step_keep_higher st tracking_num ar :
  package_latest tracking_num = Ok ar →
  UPS.rank_step st tracking_num = Ok (keep_higher st ar).
Proof.
  unfold package_latest, UPS.rank_step, keep_higher. intros H.
  do 4 bind_inv H. injection H as <-.
  rewrite Ha, bind_Ok_l, Ha0, bind_Ok_l, Ha1, bind_Ok_l, Ha2, bind_Ok_l.
  cbn [fst snd]. destruct (_ >? _); reflexivity.
Qed.

Lemma rank_loop_fold packages ars :
  Forall2 (λ p ar, package_latest p = Ok ar) packages ars →
  ∀ st, for_each UPS.rank_step st packages = Ok (fold_left keep_higher ars st).
Proof.
  induction 1 as [|p ar ps ars' Hp _ IH]; intros st; cbn [for_each fold_left].
  - reflexivity.
  - rewrite (rank_step_keep_higher st p ar Hp), bind_Ok_l. apply IH.
Qed.

(** The loop keeps the highest rank above the initial one, and the first
    event that has it. *)
Lemma keep_higher_first_max (ars : list (json * Z)) :
  ∀ st, let st' := fold_left keep_higher ars st in
    st.2 ≤ st'.2
    ∧ (∀ ar, ar ∈ ars → ar.2 ≤ st'.2)
    ∧ (st'.2 = st.2 → st' = st)
    ∧ (st.2 < st'.2 →
       ∃ i a, ars !! i = Some (a, st'.2) ∧ st'.1 = Some a
              ∧ ∀ j ar, (j < i)%nat → ars !! j = Some ar → ar.2 < st'.2).
Proof.
  induction ars as [|[a r] ars IH]; intros st; cbn [fold_left].
  - cbv zeta. split; [lia|]. split; [intros ar Har; inversion Har|].
    split; [reflexivity | lia].
  - specialize (IH (keep_higher st (a, r))). cbv zeta in IH |- *.
    set (st1 := keep_higher st (a, r)) in *.
    set (st' := fold_left keep_higher ars st1) in *.
    destruct IH as (Hle & Hmax & Hsame & Hfirst).
    assert (st.2 ≤ st1.2 ∧ r ≤ st1.2
            ∧ (st1.2 = st.2 → st1 = st)
            ∧ (st.2 < st1.2 → st1 = (Some a, r))) as (H1 & H2 & H3 & H4).
    { subst st1. unfold keep_higher. cbn [fst snd].
      destruct (Z.gtb_spec r st.2); cbn [fst snd]; repeat split; lia || auto. }
    split; [lia|]. split; [|split].
    + intros ar Har. apply elem_of_cons in Har as [->|Har]; [cbn; lia|].
      apply Hmax, Har.
    + intros Heq. rewrite Hsame by lia. apply H3. lia.
    + intros Hlt. destruct (decide (st1.2 < st'.2)) as [Hlt1|Hge1].
      * destruct (Hfirst Hlt1) as (i & a' & Hi & Ha' & Hbefore).
        exists (S i), a'. split; [exact Hi|]. split; [exact Ha'|].
        intros [|j] ar Hj Hlook; cbn in Hlook.
        -- injection Hlook as <-. cbn. lia.
        -- apply (Hbefore j ar); [lia | exact Hlook].
      * assert (st'.2 = st1.2) as Heq by lia.
        rewrite (Hsame Heq) in *. rewrite (H4 ltac:(lia)).
        exists O, a. cbn. split; [reflexivity|]. split; [reflexivity|].
        intros j ar Hj. lia.
Qed.

(** When some package has a known status code, the resolution of a list of
    packages is the first latest event of the highest rank. *)
Lemma resolve_overall_first_max overall_activity packages ars :
  Forall2 (λ p ar, package_latest p = Ok ar) packages ars →
  (∃ ar, ar ∈ ars ∧ 0 < ar.2) →
  ∃ i a r,
    ars !! i = Some (a, r)
    ∧ UPS.resolve_overall overall_activity (JList packages) = Ok a
    ∧ (∀ ar, ar ∈ ars → ar.2 ≤ r)
    ∧ (∀ j ar, (j < i)%nat → ars !! j = Some ar → ar.2 < r).
Proof.
  intros Hars (ar & Hin & Hpos). unfold UPS.resolve_overall.
  rewrite (rank_loop_fold packages ars Hars), bind_Ok_l.
  destruct (keep_higher_first_max ars (overall_activity, 0))
    as (_ & Hmax & _ & Hfirst). cbv zeta in *. cbn [fst snd] in *.
  set (st' := fold_left keep_higher ars (overall_activity, 0)) in *.
  destruct Hfirst as (i & a & Hi & Ha & Hbefore).
  { specialize (Hmax ar Hin). lia. }
  exists i, a, st'.2. rewrite Ha. auto.
Qed.

(** Without a known status code nothing is assigned: on the first response
    the variable is unbound. *)
Lemma resolve_overall_unbound packages ars :
  Forall2 (λ p ar, package_latest p = Ok ar) packages ars →
  (∀ ar, ar ∈ ars → ar.2 ≤ 0) →
  UPS.resolve_overall None (JList packages) = Raise UnboundLocalError.
Proof.
  intros Hars Hzero. unfold UPS.resolve_overall.
  rewrite (rank_loop_fold packages ars Hars), bind_Ok_l.
  destruct (keep_higher_first_max ars (None, 0))
    as (Hle & _ & Hsame & Hfirst). cbv zeta in *. cbn [fst snd] in *.
  set (st' := fold_left keep_higher ars (None, 0)) in *.
  destruct (decide (0 < st'.2)) as [Hlt|Hge].
  - destruct (Hfirst Hlt) as (i & a & Hi & _).
    apply list_elem_of_lookup_2 in Hi. specialize (Hzero _ Hi). cbn in Hzero. lia.
  - rewrite Hsame by lia. reflexivity.
Qed.

(** Ranks [3; 9; 7]: the event of rank 9 (here the one of 02:00:00) is
    resolved. *)
Example ranks_3_9_7 :
  ∃ r, UPS._simplify_ups
         [Samples.ups_response "1Z0000000000000001"
            (JList [Samples.package (Samples.activity "I" "20240101" "010000");
                    Samples.package (Samples.activity "X" "20240101" "020000");
                    Samples.package (Samples.activity "NA" "20240101" "030000")])]
       = Ok [r]
       ∧ r !! "trackingStatus" = Some (VStr "Exception")
       ∧ r !! "checkpointDate" = Some (VDatetime (mk_datetime 2024 1 1 2 0 0)).
Proof.
  match goal with
  | |- ∃ r, ?f = _ ∧ _ => exists (match f with Ok [r] => r | _ => ∅ end)
  end.
  repeat split; vm_compute; reflexivity.
Qed.

(** Ranks [5; 5]: the first event (here the one of 01:00:00) is resolved. *)
Example ranks_5_5 :
  ∃ r, UPS._simplify_ups
         [Samples.ups_response "1Z0000000000000001"
            (JList [Samples.package (Samples.activity "M" "20240101" "010000");
                    Samples.package (Samples.activity "M" "20240101" "020000")])]
       = Ok [r]
       ∧ r !! "trackingStatus" = Some (VStr "Pre-Shipment")
       ∧ r !! "checkpointDate" = Some (VDatetime (mk_datetime 2024 1 1 1 0 0)).
Proof.
  match goal with
  | |- ∃ r, ?f = _ ∧ _ => exists (match f with Ok [r] => r | _ => ∅ end)
  end.
  repeat split; vm_compute; reflexivity.
Qed.

(** C3 at a list of packages whose only status code is unknown (rank 0):
    no event is selected, and the normaliser raises [UnboundLocalError]
    instead of resolving the first record. *)
Theorem ups_unknown_codes_select_nothing :
  UPS.resolve_overall None
    (JList [Samples.package (Samples.activity "Z" "20240101" "093000")])
  = Raise UnboundLocalError
  ∧ UPS._simplify_ups
      [Samples.ups_response "1Z0000000000000001"
         (JList [Samples.package (Samples.activity "Z" "20240101" "093000")])]
    = Raise UnboundLocalError.
Proof. split; vm_compute; reflexivity. Qed.

(** ** Status vocabulary *)

(** A category of Carrier B outside its vocabulary gives the status [None]. *)
Lemma usps_unmapped_category_none d category :
  py_get (JDict d) "StatusCategory" = Ok (JStr category) →
  category ∉ ["Delivered"; "Delivered to Agent"; "Alert"; "In Transit";
              "Out for Delivery"; "Pre-Shipment"; "Delivery Attempt";
              "Available for Pickup"] →
  ∃ r, USPS.simplify_entry (JDict d) = Ok (Some r)
       ∧ r !! "trackingStatus" = Some VNone.
Proof.
  intros Hcat Hnot. unfold USPS.simplify_entry.
  change (py_get (JDict d) "@ID") with
    (Ok (match assoc "@ID" d with Some v => v | None => JNull end)).
  cbv iota. rewrite Hcat, bind_Ok_l.
  assert (py_get_key USPS.usps_status_codes (JStr category) = Ok JNull) as ->.
  { unfold USPS.usps_status_codes.
    cbn [py_get_key py_get py_get_default assoc].
    repeat match goal with
    | |- context [String.eqb category ?c] =>
        destruct (String.eqb_spec category c) as [->|_];
        [exfalso; apply Hnot; set_solver|]
    end.
    reflexivity. }
  rewrite bind_Ok_l. eexists. split; [reflexivity|].
  do 3 (rewrite lookup_insert_ne by discriminate).
  apply lookup_insert_eq.
Qed.

(** A status code of Carrier A outside its vocabulary is a [KeyError]. *)
Lemma ups_unmapped_code_raises package_activity status code :
  py_getitem package_activity "Status" = Ok status →
  py_getitem status "Type" = Ok (JStr code) →
  code ∉ ["X"; "RS"; "NA"; "MV"; "M"; "P"; "I"; "O"; "D"] →
  UPS.tracking_status package_activity = Raise KeyError.
Proof.
  intros Hstatus Hcode Hnot. unfold UPS.tracking_status.
  rewrite Hstatus, bind_Ok_l, Hcode, bind_Ok_l.
  unfold UPS.ups_status_codes. cbn [py_lookup_key py_getitem assoc].
  repeat match goal with
  | |- context [String.eqb code ?c] =>
      destruct (String.eqb_spec code c) as [->|_];
      [exfalso; apply Hnot; set_solver|]
  end.
  reflexivity.
Qed.

(** C1 at the status code ["Z"] of Carrier A, absent from its vocabulary:
    the lookup of the code raises [KeyError], the default ["Unknown"] is
    never reached and no record is emitted. *)
Theorem ups_unmapped_status_code_raises :
  UPS.tracking_status (Samples.activity "Z" "20240101" "093000")
  = Raise KeyError
  ∧ UPS._simplify_ups
      [Samples.ups_response "1Z0000000000000001"
         (Samples.package (Samples.activity "Z" "20240101" "093000"))]
    = Raise KeyError.
Proof. split; vm_compute; reflexivity. Qed.

(** ** Locations *)

(** Carrier A: country, state or province, city, in upper case. *)
Example ups_location_louisville :
  UPS.checkpoint_location (Samples.activity "D" "20240101" "093000")
  = JStr "US, KY, LOUISVILLE".
Proof. vm_compute. reflexivity. Qed.

(** Carrier A: a component missing from the address is replaced by
    ["---"]. *)
Lemma ups_location_placeholder package_activity location d city state country :
  py_getitem package_activity "ActivityLocation" = Ok location →
  py_getitem location "Address" = Ok (JDict d) →
  address_component d "City" = JStr city →
  address_component d "StateProvinceCode" = JStr state →
  address_component d "CountryCode" = JStr country →
  UPS.checkpoint_location package_activity
  = JStr (upper (country +:+ ", " +:+ state +:+ ", " +:+ city)).
Proof.
  intros Hloc Haddr Hcity Hstate Hcountry. unfold UPS.checkpoint_location.
  rewrite Hloc, bind_Ok_l, Haddr, bind_Ok_l.
  unfold address_component in *. cbn [py_get_default].
  rewrite !bind_Ok_l, Hcity, Hstate, Hcountry. reflexivity.
Qed.

Example ups_location_all_missing :
  UPS.checkpoint_location
    (JDict [("ActivityLocation", JDict [("Address", JDict [])])])
  = JStr "---, ---, ---".
Proof. reflexivity. Qed.

(** Carrier B: a missing city or state drops the whole location. *)
Lemma usps_location_missing_field d track_summary :
  py_get (JDict d) "TrackSummary" = Ok track_summary →
  py_get track_summary "EventCity" = Ok JNull
  ∨ py_get track_summary "EventState" = Ok JNull →
  USPS.checkpoint_location (JDict d) = VNone.
Proof.
  intros Hsummary Hmissing. unfold USPS.checkpoint_location.
  rewrite Hsummary, bind_Ok_l. destruct Hmissing as [H|H].
  - rewrite H. reflexivity.
  - destruct (py_get track_summary "EventCity") as [city|e]; [|reflexivity].
    rewrite bind_Ok_l. destruct (py_upper city) as [event_city|e];
      [|reflexivity].
    rewrite bind_Ok_l, H. reflexivity.
Qed.

(** C2 at an entry of Carrier B with city ["Louisville"] and state ["KY"]:
    the location is ["LOUISVILLE, KY, US"], city first and country last,
    not ["US, KY, LOUISVILLE"]. *)
Theorem usps_location_order :
  ∃ r, USPS._simplify_usps
         [Samples.track_info "9400100000000000000001" "Louisville" "KY"
            "Delivered" "January 1, 2024" "09:30 AM"]
       = Ok [r]
       ∧ r !! "checkpointLocation" = Some (VStr "LOUISVILLE, KY, US")
       ∧ r !! "checkpointLocation" ≠ Some (VStr "US, KY, LOUISVILLE").
Proof.
  eexists. split; [vm_compute; reflexivity|].
  split; [vm_compute; reflexivity|]. vm_compute. discriminate.
Qed.

(** ** Completeness of the normalisation *)

(** A document of Carrier B with two entries gives two records, each with
    the identifier of its entry. *)
Example usps_two_entries :
  ∃ r1 r2,
    USPS.track_usps "user" "company" "127.0.0.1"
      (λ _, Ok (Samples.usps_document
                  [Samples.track_info "9400100000000000000001" "Louisville"
                     "KY" "Delivered" "January 1, 2024" "09:30 AM";
                   Samples.track_info "9400100000000000000002" "Louisville"
                     "KY" "In Transit" "January 1, 2024" "09:30 AM"]))
      ["9400100000000000000001"; "9400100000000000000002"] true
    = Ok (Simplified [r1; r2], [])
    ∧ r1 !! "trackingNumber" = Some (VStr "9400100000000000000001")
    ∧ r2 !! "trackingNumber" = Some (VStr "9400100000000000000002").
Proof.
  match goal with
  | |- ∃ r1 r2, ?f = _ ∧ _ =>
      exists (match f with Ok (Simplified [r; _], _) => r | _ => ∅ end),
             (match f with Ok (Simplified [_; r], _) => r | _ => ∅ end)
  end.
  repeat split; vm_compute; reflexivity.
Qed.

(** C4 at a batch of Carrier B with a single track entry: the decoded
    [TrackInfo] is the entry itself, the fetcher appends its keys, the
    normaliser skips each of them, and no record is emitted. *)
Theorem usps_single_entry_batch_dropped :
  let answer :=
    Samples.usps_document
      [Samples.track_info "9400100000000000000001" "Louisville" "KY"
         "Delivered" "January 1, 2024" "09:30 AM"] in
  USPS.track_usps "user" "company" "127.0.0.1" (λ _, Ok answer)
    ["9400100000000000000001"] false
  = Ok (Raw [JStr "@ID"; JStr "TrackSummary"; JStr "Status";
             JStr "StatusCategory"; JStr "StatusSummary"], [])
  ∧ USPS.track_usps "user" "company" "127.0.0.1" (λ _, Ok answer)
      ["9400100000000000000001"] true
    = Ok (Simplified [], []).
Proof. split; vm_compute; reflexivity. Qed.

(** * Further properties *)

Lemma succeeded_eq {A} (r : result A) (d : A) :
  succeeded r = true → r = Ok (try_except r d).
Proof. destruct r; [reflexivity | discriminate]. Qed.

(** ** The fetcher of Carrier B *)




(** ** The normaliser of Carrier B *)

Lemma usps_simplify_step_entry acc i :
  USPS.simplify_step acc i
  = match USPS.simplify_entry i with
    | Ok (Some r) => Ok (acc ++ [r])
    | Ok None => Ok acc
    | Raise e => Raise e
    end.
Proof.
  unfold USPS.simplify_step.
  destruct (USPS.simplify_entry i) as [[r|]|e]; reflexivity.
Qed.

Lemma usps_simplify_entry_not_dict i :
  is_dict i = false → USPS.simplify_entry i = Ok None.
Proof. destruct i; (discriminate || reflexivity). Qed.

Lemma usps_simplify_entry_dict d :
  hashable (field_of (JDict d) "StatusCategory") = true →
  ∃ r, USPS.simplify_entry (JDict d) = Ok (Some r)
       ∧ r !! "trackingNumber" = Some (VJson (field_of (JDict d) "@ID")).
Proof.
  intros Hhash. unfold USPS.simplify_entry, field_of in *.
  cbn [py_get py_get_default try_except] in *.
  set (category := match assoc "StatusCategory" d with
                   | Some v => v | None => JNull end) in *.
  rewrite bind_Ok_l.
  assert (∃ status, py_get_key USPS.usps_status_codes category = Ok status)
    as [status ->].
  { destruct category; try discriminate Hhash; eexists; reflexivity. }
  rewrite bind_Ok_l. eexists. split; [reflexivity|].
  do 4 (rewrite lookup_insert_ne by discriminate). apply lookup_insert_eq.
Qed.

Lemma usps_simplify_loop tracking_results :
  Forall (λ i, is_dict i = true →
               hashable (field_of i "StatusCategory") = true)
    tracking_results →
  ∀ acc, ∃ out,
    for_each USPS.simplify_step acc tracking_results = Ok (acc ++ out)
    ∧ Forall2 (λ i r, r !! "trackingNumber" = Some (VJson (field_of i "@ID")))
        (List.filter is_dict tracking_results) out.
Proof.
  induction 1 as [|i l Hi _ IH]; intros acc.
  - exists []. rewrite app_nil_r. split; [reflexivity | constructor].
  - cbn [for_each List.filter]. rewrite usps_simplify_step_entry.
    destruct (is_dict i) eqn:Hdict.
    + destruct i as [| | | | |d]; try discriminate Hdict.
      destruct (usps_simplify_entry_dict d (Hi eq_refl)) as (r & -> & Hr).
      rewrite bind_Ok_l. destruct (IH (acc ++ [r])) as (out & -> & Hout).
      exists (r :: out). rewrite <- app_assoc. split; [reflexivity|].
      constructor; assumption.
    + rewrite (usps_simplify_entry_not_dict i Hdict), bind_Ok_l.
      destruct (IH acc) as (out & -> & Hout). exists out.
      split; [reflexivity | exact Hout].
Qed.

(** [_simplify_usps] returns whenever no dict entry has a list or a dict as
    [StatusCategory]: it then emits one record per dict entry, in order,
    with [trackingNumber] the [@ID] of the entry ([None] when the entry has
    none), and skips every entry that is not a dict. *)
Theorem usps_simplify_one_record_per_dict (tracking_results : list json) :
  Forall (λ i, is_dict i = true →
               hashable (field_of i "StatusCategory") = true)
    tracking_results →
  ∃ out,
    USPS._simplify_usps tracking_results = Ok out
    ∧ Forall2 (λ i r, r !! "trackingNumber" = Some (VJson (field_of i "@ID")))
        (List.filter is_dict tracking_results) out.
Proof.
  intros H. destruct (usps_simplify_loop tracking_results H []) as (out & Ho & Hr).
  exists out. split; [exact Ho | exact Hr].
Qed.

Lemma usps_simplify_one_record_per_dict_witness :
  ∃ r, USPS._simplify_usps
         [JStr "@ID"; JDict [("Status", JStr "Status text")]; JNull]
       = Ok [r]
       ∧ r !! "trackingNumber" = Some VNone.
Proof.
  destruct (usps_simplify_one_record_per_dict
              [JStr "@ID"; JDict [("Status", JStr "Status text")]; JNull])
    as (out & Hout & Hrecords).
  - repeat constructor; cbn; try discriminate; intros _; reflexivity.
  - cbn [List.filter is_dict] in Hrecords.
    inversion Hrecords as [|i r l out' Hr Hrest]; subst.
    inversion Hrest; subst.
    exists r. split; [exact Hout | exact Hr].
Defined.

(** A dict entry whose [StatusCategory] is a list or a dict makes the
    vocabulary lookup raise [TypeError], which no guard catches: the whole
    normalisation is lost, also the records of the entries before it. *)
Theorem usps_simplify_unhashable_category
    (pre post : list json) (d : list (string * json)) :
  Forall (λ i, is_dict i = true →
               hashable (field_of i "StatusCategory") = true) pre →
  hashable (field_of (JDict d) "StatusCategory") = false →
  USPS._simplify_usps (pre ++ JDict d :: post) = Raise TypeError.
Proof.
  intros Hpre Hbad. unfold USPS._simplify_usps.
  destruct (usps_simplify_loop pre Hpre []) as (out & Hout & _).
  rewrite (for_each_raise _ _ _ pre (JDict d) post TypeError Hout);
    [reflexivity|].
  rewrite usps_simplify_step_entry.
  unfold USPS.simplify_entry, field_of in *.
  cbn [py_get py_get_default try_except] in *. rewrite bind_Ok_l.
  destruct (match assoc "StatusCategory" d with
            | Some v => v | None => JNull end);
    try discriminate Hbad; reflexivity.
Qed.

Lemma usps_simplify_unhashable_category_witness :
  USPS._simplify_usps
    [Samples.track_info "9400100000000000000001" "Louisville" "KY"
       "Delivered" "January 1, 2024" "09:30 AM";
     JDict [("@ID", JStr "9400100000000000000002");
            ("StatusCategory", JDict [("@code", JStr "01")])]]
  = Raise TypeError.
Proof.
  apply (usps_simplify_unhashable_category
           [Samples.track_info "9400100000000000000001" "Louisville" "KY"
              "Delivered" "January 1, 2024" "09:30 AM"] []
           [("@ID", JStr "9400100000000000000002");
            ("StatusCategory", JDict [("@code", JStr "01")])]).
  - repeat constructor.
  - reflexivity.
Defined.

(** ** Closed status vocabularies *)

Ltac in_list :=
  repeat first [apply list_elem_of_here | apply list_elem_of_further].

Ltac not_in_list H :=
  repeat (apply elem_of_cons in H as [H|H]; [discriminate H|]);
  inversion H.

Lemma usps_status_lookup_vocabulary category status :
  py_get_key USPS.usps_status_codes category = Ok status →
  status ∈ usps_vocabulary.
Proof.
  unfold usps_vocabulary.
  destruct category as [| | |k| |]; cbn; try (intros [= <-]; in_list; fail).
  repeat match goal with
  | |- context [String.eqb k ?c] => destruct (String.eqb k c)
  end; intros [= <-]; in_list.
Qed.

Lemma usps_simplify_entry_status i r :
  USPS.simplify_entry i = Ok (Some r) →
  ∃ status, r !! "trackingStatus" = Some (VJson status)
            ∧ status ∈ usps_vocabulary.
Proof.
  unfold USPS.simplify_entry. intros H.
  destruct (py_get i "@ID") as [tracking_number|e]; [|discriminate H].
  do 2 bind_inv H. injection H as <-. exists a0. split.
  - do 3 (rewrite lookup_insert_ne by discriminate). apply lookup_insert_eq.
  - eapply usps_status_lookup_vocabulary. eassumption.
Qed.

(** Every record [_simplify_usps] emits has as [trackingStatus] a value of
    the status table or [None]: never the raw category of the carrier, and
    never ["Unknown"]. *)
Theorem usps_status_in_vocabulary (tracking_results : list json)
    (out : list (gmap string value)) :
  USPS._simplify_usps tracking_results = Ok out →
  Forall (λ r, ∃ status, r !! "trackingStatus" = Some (VJson status)
                         ∧ status ∈ usps_vocabulary
                         ∧ status ≠ JStr "Unknown") out.
Proof.
  unfold USPS._simplify_usps.
  apply (for_each_invariant
           (λ st, Forall (λ r : gmap string value,
                            ∃ status, r !! "trackingStatus" = Some (VJson status)
                                      ∧ status ∈ usps_vocabulary
                                      ∧ status ≠ JStr "Unknown") st)).
  - intros st i st' HP Hstep. rewrite usps_simplify_step_entry in Hstep.
    destruct (USPS.simplify_entry i) as [[r|]|e] eqn:E;
      [|injection Hstep as <-; exact HP | discriminate Hstep].
    injection Hstep as <-. apply Forall_app. split; [exact HP|].
    constructor; [|constructor].
    destruct (usps_simplify_entry_status i r E) as (status & Hr & Hin).
    exists status. split; [exact Hr|]. split; [exact Hin|].
    intros ->. unfold usps_vocabulary in Hin. not_in_list Hin.
  - constructor.
Qed.

Lemma usps_status_in_vocabulary_witness :
  let input := [JDict [("@ID", JStr "9400100000000000000001");
                       ("StatusCategory", JStr "Seized by Law Enforcement")]] in
  ∃ out,
    USPS._simplify_usps input = Ok out
    ∧ length out = 1%nat
    ∧ Forall (λ r, ∃ status, r !! "trackingStatus" = Some (VJson status)
                             ∧ status ∈ usps_vocabulary
                             ∧ status ≠ JStr "Unknown") out.
Proof.
  intros input. pose (out := try_except (USPS._simplify_usps input) []).
  assert (USPS._simplify_usps input = Ok out) as Hout
    by (apply succeeded_eq; vm_compute; reflexivity).
  exists out. split; [exact Hout|]. split; [vm_compute; reflexivity|].
  exact (usps_status_in_vocabulary input out Hout).
Defined.

Lemma ups_tracking_status_vocabulary package_activity status :
  UPS.tracking_status package_activity = Ok status →
  ∃ s, status = JStr s ∧ s ∈ ups_vocabulary.
Proof.
  unfold UPS.tracking_status. intros H. do 3 bind_inv H.
  unfold UPS.ups_status_codes in Ha1.
  destruct a0 as [| | |k| |]; try discriminate Ha1.
  cbn [py_lookup_key py_getitem assoc] in Ha1.
  unfold ups_vocabulary.
  repeat match type of Ha1 with
  | context [String.eqb k ?c] =>
      destruct (String.eqb k c);
      [injection Ha1 as <-; injection H as <-; eexists; split;
       [reflexivity | in_list]|]
  end.
  discriminate Ha1.
Qed.

Lemma ups_build_record_status tracking_number package_activity r :
  UPS.build_record tracking_number package_activity = Ok r →
  ∃ status, UPS.tracking_status package_activity = Ok status
            ∧ r !! "trackingStatus" = Some (VJson status)
            ∧ r !! "trackingNumber" = Some (VJson tracking_number).
Proof.
  unfold UPS.build_record. intros H. do 7 bind_inv H. injection H as <-.
  exists a3. split; [assumption|]. split.
  - rewrite lookup_insert_ne by discriminate. apply lookup_insert_eq.
  - do 3 (rewrite lookup_insert_ne by discriminate). apply lookup_insert_eq.
Qed.

(** Every record [_simplify_ups] emits has as [trackingStatus] one of the
    eight [general_status] values of the status table; the default
    ["Unknown"] of line 182 is never the status of a record. *)
Theorem ups_status_in_vocabulary (tracking_results : list json)
    (out : list (gmap string value)) :
  UPS._simplify_ups tracking_results = Ok out →
  Forall (λ r, ∃ s, r !! "trackingStatus" = Some (VStr s)
                    ∧ s ∈ ups_vocabulary ∧ s ≠ "Unknown") out.
Proof.
  unfold UPS._simplify_ups. intros H. bind_inv H. injection H as <-.
  revert Ha.
  apply (for_each_invariant
           (λ st : option json * list (gmap string value),
              Forall (λ r, ∃ s, r !! "trackingStatus" = Some (VStr s)
                                ∧ s ∈ ups_vocabulary ∧ s ≠ "Unknown") st.2)).
  - intros st resp st' HP Hstep. unfold UPS.simplify_step in Hstep.
    do 2 bind_inv Hstep. injection Hstep as <-. cbn [snd].
    apply Forall_app. split; [exact HP|]. constructor; [|constructor].
    destruct (ups_build_record_status _ _ _ Ha0) as (status & Hst & Hr & _).
    destruct (ups_tracking_status_vocabulary _ _ Hst) as (s & -> & Hin).
    exists s. split; [exact Hr|]. split; [exact Hin|].
    intros ->. unfold ups_vocabulary in Hin. not_in_list Hin.
  - constructor.
Qed.

Lemma ups_status_in_vocabulary_witness :
  let input :=
    [Samples.ups_response "1Z0000000000000001"
       (Samples.package (Samples.activity "MV" "20240101" "093000"))] in
  ∃ out,
    UPS._simplify_ups input = Ok out
    ∧ length out = 1%nat
    ∧ Forall (λ r, ∃ s, r !! "trackingStatus" = Some (VStr s)
                        ∧ s ∈ ups_vocabulary ∧ s ≠ "Unknown") out.
Proof.
  intros input. pose (out := try_except (UPS._simplify_ups input) []).
  assert (UPS._simplify_ups input = Ok out) as Hout
    by (apply succeeded_eq; vm_compute; reflexivity).
  exists out. split; [exact Hout|]. split; [vm_compute; reflexivity|].
  exact (ups_status_in_vocabulary input out Hout).
Defined.

(** ** The normaliser of Carrier A *)

Lemma select_activity_inquiry overall_activity resp selected :
  UPS.select_activity overall_activity resp = Ok selected →
  inquiry_value resp = Ok selected.1.1.
Proof.
  unfold UPS.select_activity, inquiry_value. intros H.
  do 7 bind_inv H. injection H as <-. cbn [fst].
  rewrite Ha, bind_Ok_l, Ha0, bind_Ok_l, Ha2, bind_Ok_l. exact Ha3.
Qed.

Lemma ups_simplify_loop_records tracking_results :
  ∀ st st',
    for_each UPS.simplify_step st tracking_results = Ok st' →
    ∃ new,
      st'.2 = st.2 ++ new
      ∧ Forall2 (λ resp r, ∃ tracking_number,
                   inquiry_value resp = Ok tracking_number
                   ∧ r !! "trackingNumber" = Some (VJson tracking_number))
          tracking_results new.
Proof.
  induction tracking_results as [|resp l IH]; intros st st' H;
    cbn [for_each] in H.
  - injection H as <-. exists []. rewrite app_nil_r.
    split; [reflexivity | constructor].
  - bind_inv H. destruct (IH _ _ H) as (new & Hnew & Hrecords).
    unfold UPS.simplify_step in Ha. do 2 bind_inv Ha. injection Ha as <-.
    cbn [snd] in Hnew. exists (a1 :: new). split.
    + rewrite Hnew, <- app_assoc. reflexivity.
    + constructor; [|exact Hrecords]. exists a0.1.1. split.
      * eapply select_activity_inquiry. eassumption.
      * destruct (ups_build_record_status _ _ _ Ha1) as (_ & _ & _ & Hn).
        exact Hn.
Qed.

(** When [_simplify_ups] returns, it returns exactly one record per
    response, in the order of the responses, and the [trackingNumber] of
    each record is the [InquiryNumber] value of its response. *)
Theorem ups_simplify_one_record_per_response (tracking_results : list json)
    (out : list (gmap string value)) :
  UPS._simplify_ups tracking_results = Ok out →
  Forall2 (λ resp r, ∃ tracking_number,
             inquiry_value resp = Ok tracking_number
             ∧ r !! "trackingNumber" = Some (VJson tracking_number))
    tracking_results out.
Proof.
  unfold UPS._simplify_ups. intros H. bind_inv H. injection H as <-.
  destruct (ups_simplify_loop_records _ _ _ Ha) as (new & -> & Hrecords).
  exact Hrecords.
Qed.

Lemma ups_simplify_one_record_per_response_witness :
  let input :=
    [Samples.ups_response "1Z0000000000000001"
       (Samples.package (Samples.activity "D" "20240101" "093000"));
     Samples.ups_response "1Z0000000000000002"
       (Samples.package (Samples.activity "I" "20240102" "101500"))] in
  ∃ out,
    UPS._simplify_ups input = Ok out
    ∧ length out = 2%nat
    ∧ Forall2 (λ resp r, ∃ tracking_number,
                 inquiry_value resp = Ok tracking_number
                 ∧ r !! "trackingNumber" = Some (VJson tracking_number))
        input out.
Proof.
  intros input. pose (out := try_except (UPS._simplify_ups input) []).
  assert (UPS._simplify_ups input = Ok out) as Hout
    by (apply succeeded_eq; vm_compute; reflexivity).
  exists out. split; [exact Hout|]. split; [vm_compute; reflexivity|].
  exact (ups_simplify_one_record_per_response input out Hout).
Defined.

Lemma resolve_overall_keeps_previous previous packages ars :
  Forall2 (λ p ar, package_latest p = Ok ar) packages ars →
  (∀ ar, ar ∈ ars → ar.2 ≤ 0) →
  UPS.resolve_overall (Some previous) (JList packages) = Ok previous.
Proof.
  intros Hars Hzero. unfold UPS.resolve_overall.
  rewrite (rank_loop_fold packages ars Hars), bind_Ok_l.
  destruct (keep_higher_first_max ars (Some previous, 0))
    as (Hle & _ & Hsame & Hfirst). cbv zeta in *. cbn [fst snd] in *.
  set (st' := fold_left keep_higher ars (Some previous, 0)) in *.
  destruct (decide (0 < st'.2)) as [Hlt|Hge].
  - destruct (Hfirst Hlt) as (i & a & Hi & _).
    apply list_elem_of_lookup_2 in Hi. specialize (Hzero _ Hi).
    cbn in Hzero. lia.
  - rewrite Hsame by lia. reflexivity.
Qed.

(** A response whose package list has only unknown status codes (or is
    empty), coming after another response, is not rejected: its record is
    built from the event kept from the previous response, under its own
    tracking number. *)
Theorem ups_unknown_codes_reuse_previous_event
    (previous : json) (acc : list (gmap string value))
    (resp tracking_number : json) (packages : list json)
    (ars : list (json * Z)) :
  inquiry_value resp = Ok tracking_number →
  package_data_of resp = Ok (JList packages) →
  Forall2 (λ p ar, package_latest p = Ok ar) packages ars →
  (∀ ar, ar ∈ ars → ar.2 ≤ 0) →
  UPS.simplify_step (Some previous, acc) resp
  = (package_activity ← UPS.latest_of previous;
     ups_status ← UPS.build_record tracking_number package_activity;
     Ok (Some previous, acc ++ [ups_status])).
Proof.
  intros Hnumber Hpackages Hars Hzero.
  unfold inquiry_value in Hnumber. do 3 bind_inv Hnumber.
  unfold package_data_of in Hpackages. do 2 bind_inv Hpackages.
  rewrite Ha in Ha2. injection Ha2 as <-.
  rewrite Ha0 in Ha3. injection Ha3 as <-.
  unfold UPS.simplify_step, UPS.select_activity. cbn [fst snd].
  rewrite Ha, bind_Ok_l, Ha0, bind_Ok_l, Hpackages, bind_Ok_l.
  rewrite Ha1, bind_Ok_l, Hnumber, bind_Ok_l.
  rewrite (resolve_overall_keeps_previous previous packages ars Hars Hzero).
  rewrite bind_Ok_l.
  destruct (UPS.latest_of previous) as [package_activity|e]; [|reflexivity].
  rewrite !bind_Ok_l. cbn [fst snd]. reflexivity.
Qed.

Lemma ups_unknown_codes_reuse_previous_event_witness :
  let previous := Samples.activity "D" "20240101" "093000" in
  let second :=
    Samples.ups_response "1Z0000000000000002"
      (JList [Samples.package (Samples.activity "Z" "20240305" "170000")]) in
  let step := UPS.simplify_step (Some previous, []) second in
  succeeded step = true
  ∧ (r ← (try_except step (None, [])).2 !! 0%nat; r !! "checkpointDate")
    = Some (VDatetime new_year_0930)
  ∧ (r ← (try_except step (None, [])).2 !! 0%nat; r !! "trackingNumber")
    = Some (VStr "1Z0000000000000002").
Proof.
  intros previous second step.
  assert (step
          = (package_activity ← UPS.latest_of previous;
             ups_status ← UPS.build_record (JStr "1Z0000000000000002")
                            package_activity;
             Ok (Some previous, [] ++ [ups_status]))) as ->.
  { apply (ups_unknown_codes_reuse_previous_event previous [] second
             (JStr "1Z0000000000000002")
             [Samples.package (Samples.activity "Z" "20240305" "170000")]
             [(Samples.activity "Z" "20240305" "170000", 0)]).
    - vm_compute. reflexivity.
    - vm_compute. reflexivity.
    - repeat constructor.
    - intros ar Har. apply list_elem_of_singleton in Har as ->. cbn. lia. }
  repeat split; vm_compute; reflexivity.
Defined.

(** ** Locations and upper case *)

Lemma upper_ascii_idempotent c : upper_ascii (upper_ascii c) = upper_ascii c.
Proof. destruct c as [[] [] [] [] [] [] [] []]; reflexivity. Qed.

Lemma upper_idempotent s : upper (upper s) = upper s.
Proof.
  unfold upper. induction s as [|c s IH]; cbn; [reflexivity|].
  f_equal; [apply upper_ascii_idempotent | exact IH].
Qed.

Lemma upper_app s t : upper (s +:+ t) = upper s +:+ upper t.
Proof.
  unfold upper. induction s as [|c s IH]; [reflexivity|].
  change (String c s +:+ t) with (String c (s +:+ t)).
  cbn [map_string]. rewrite IH. reflexivity.
Qed.



(** A location of Carrier B, when present, is the upper-case city, the
    upper-case state and the fixed country ["US"], in that order. *)
Theorem usps_location_form (i : json) (s : string) :
  USPS.checkpoint_location i = VStr s →
  (∃ track_summary city state,
     py_get i "TrackSummary" = Ok track_summary
     ∧ py_get track_summary "EventCity" = Ok (JStr city)
     ∧ py_get track_summary "EventState" = Ok (JStr state)
     ∧ s = upper city +:+ ", " +:+ upper state +:+ ", " +:+ "US")
  ∧ upper s = s.
Proof.
  unfold USPS.checkpoint_location. intros H.
  destruct (_ ≫= _) as [location|e] eqn:E; cbn [try_except] in H;
    [subst location | discriminate H].
  do 6 bind_inv E. injection E as <-.
  destruct a0 as [| | |city| |]; try discriminate Ha1.
  destruct a2 as [| | |state| |]; try discriminate Ha3.
  cbn in Ha1, Ha3. injection Ha1 as <-. injection Ha3 as <-.
  cbn in Ha4. injection Ha4 as <-. split.
  - exists a, city, state. repeat split; assumption.
  - rewrite !upper_app, !upper_idempotent. reflexivity.
Qed.

Lemma usps_location_form_witness :
  ∃ s, USPS.checkpoint_location
         (Samples.track_info "9400100000000000000001" "St. Louis" "mo"
            "Delivered" "January 1, 2024" "09:30 AM")
       = VStr s
       ∧ upper s = s.
Proof.
  exists "ST. LOUIS, MO, US". split; [reflexivity|].
  refine (proj2 (usps_location_form
    (Samples.track_info "9400100000000000000001" "St. Louis" "mo"
       "Delivered" "January 1, 2024" "09:30 AM")
    "ST. LOUIS, MO, US" _)).
  reflexivity.
Defined.

Lemma ups_location_placeholder_witness :
  UPS.checkpoint_location
    (JDict [("ActivityLocation",
              JDict [("Address", JDict [("City", JStr "Windsor");
                                        ("CountryCode", JStr "ca")])])])
  = JStr "CA, ---, WINDSOR".
Proof.
  apply (ups_location_placeholder
           (JDict [("ActivityLocation",
                     JDict [("Address", JDict [("City", JStr "Windsor");
                                               ("CountryCode", JStr "ca")])])])
           (JDict [("Address", JDict [("City", JStr "Windsor");
                                      ("CountryCode", JStr "ca")])])
           [("City", JStr "Windsor"); ("CountryCode", JStr "ca")]
           "Windsor" "---" "ca"); reflexivity.
Defined.

Lemma usps_location_missing_field_witness :
  USPS.checkpoint_location
    (JDict [("@ID", JStr "9400100000000000000001");
            ("TrackSummary", JDict [("EventCity", JStr "Louisville")])])
  = VNone.
Proof.
  apply (usps_location_missing_field
           [("@ID", JStr "9400100000000000000001");
            ("TrackSummary", JDict [("EventCity", JStr "Louisville")])]
           (JDict [("EventCity", JStr "Louisville")])).
  - reflexivity.
  - right. reflexivity.
Defined.

Lemma usps_unmapped_category_none_witness :
  ∃ r, USPS.simplify_entry
         (JDict [("@ID", JStr "9400100000000000000001");
                 ("StatusCategory", JStr "Seized by Law Enforcement")])
       = Ok (Some r)
       ∧ r !! "trackingStatus" = Some VNone.
Proof.
  apply (usps_unmapped_category_none
           [("@ID", JStr "9400100000000000000001");
            ("StatusCategory", JStr "Seized by Law Enforcement")]
           "Seized by Law Enforcement").
  - reflexivity.
  - intros Hin. not_in_list Hin.
Defined.

Lemma resolve_overall_first_max_witness :
  ∃ i a r,
    [(Samples.activity "I" "20240101" "010000", 3);
     (Samples.activity "X" "20240101" "020000", 9);
     (Samples.activity "X" "20240101" "030000", 9)] !! i = Some (a, r)
    ∧ UPS.resolve_overall None
        (JList [Samples.package (Samples.activity "I" "20240101" "010000");
                Samples.package (Samples.activity "X" "20240101" "020000");
                Samples.package (Samples.activity "X" "20240101" "030000")])
      = Ok a
    ∧ i = 1%nat.
Proof.
  destruct (resolve_overall_first_max None
              [Samples.package (Samples.activity "I" "20240101" "010000");
               Samples.package (Samples.activity "X" "20240101" "020000");
               Samples.package (Samples.activity "X" "20240101" "030000")]
              [(Samples.activity "I" "20240101" "010000", 3);
               (Samples.activity "X" "20240101" "020000", 9);
               (Samples.activity "X" "20240101" "030000", 9)])
    as (i & a & r & Hi & Hres & Hmax & Hfirst).
  - repeat constructor.
  - exists (Samples.activity "I" "20240101" "010000", 3).
    split; [in_list | cbn; lia].
  - exists i, a, r. split; [exact Hi|]. split; [exact Hres|].
    destruct i as [|[|[|i]]].
    + injection Hi as _ <-.
      specialize (Hmax (Samples.activity "X" "20240101" "020000", 9)
                    ltac:(in_list)).
      cbn in Hmax. lia.
    + reflexivity.
    + injection Hi as _ <-.
      specialize (Hfirst 1%nat (Samples.activity "X" "20240101" "020000", 9)
                    ltac:(lia) eq_refl).
      cbn in Hfirst. lia.
    + discriminate Hi.
Defined.

(** ** The fetcher of Carrier A *)

(** A response of Carrier A that does not decode to a dict (a JSON list,
    string, number or [null]) is not counted as a failure: asking it for
    [Fault] raises [AttributeError], which ends the fetch and loses the
    responses already collected. *)
Theorem ups_fetch_non_dict_response
    (session_get : json → result json) (pre post : list json)
    (request resp : json) :
  Forall (λ r, is_Ok (UPS.fetch_step session_get ([], []) r)) pre →
  session_get request = Ok resp →
  is_dict resp = false →
  UPS._track_ups session_get (pre ++ request :: post) = Raise AttributeError.
Proof.
  intros Hpre Hget Hdict. unfold UPS._track_ups.
  destruct (ups_fetch_loop_ok session_get pre Hpre ([], [])) as [st Hst].
  rewrite (for_each_raise _ _ st pre request post AttributeError Hst);
    [reflexivity|].
  unfold UPS.fetch_step. rewrite Hget, bind_Ok_l.
  destruct resp; (discriminate Hdict || reflexivity).
Qed.

Lemma ups_fetch_non_dict_response_witness :
  UPS._track_ups
    (λ request, if bool_decide (Samples.inquiry_number request = "1Z02")
                then Ok (JList [])
                else Samples.ups_server [] [] request)
    (UPS._create_ups_request "user" "password" "license"
       ["1Z01"; "1Z02"; "1Z03"])
  = Raise AttributeError.
Proof.
  apply (ups_fetch_non_dict_response _
           (UPS._create_ups_request "user" "password" "license" ["1Z01"])
           (UPS._create_ups_request "user" "password" "license" ["1Z03"])
           (UPS.payload "user" "password" "license" "1Z02") (JList [])).
  - repeat constructor. eexists. vm_compute. reflexivity.
  - vm_compute. reflexivity.
  - reflexivity.
Defined.

(** ** Chunk sizes that are not positive *)

(** [chunk_list] with chunk size 0 raises [ValueError] (the step of
    [range]); with a negative chunk size it returns no chunk at all, so
    the items of a non-empty list are silently dropped. *)
Theorem chunk_list_nonpositive {A : Type} (chunk_size : Z)
    (whole_list : list A) :
  chunk_size ≤ 0 →
  chunk_list chunk_size whole_list
  = (if decide (chunk_size = 0) then Raise ValueError else Ok [])
  ∧ (chunk_size < 0 → whole_list ≠ [] →
     ∃ chunks, chunk_list chunk_size whole_list = Ok chunks
               ∧ concat chunks ≠ whole_list).
Proof.
  intros Hle. unfold chunk_list, py_range0.
  destruct (Z.eqb_spec chunk_size 0) as [->|Hne].
  - split; [reflexivity | lia].
  - destruct (Z.ltb_spec chunk_size 0) as [Hlt|?]; [|lia].
    destruct (decide (chunk_size = 0)) as [?|_]; [lia|].
    split; [reflexivity|]. intros _ Hnonempty. exists [].
    split; [reflexivity|]. cbn. congruence.
Qed.

Lemma chunk_list_nonpositive_witness :
  chunk_list 0 ["a"; "b"; "c"] = Raise ValueError
  ∧ chunk_list (-2) ["a"; "b"; "c"] = Ok [].
Proof.
  split.
  - apply (chunk_list_nonpositive 0 ["a"; "b"; "c"]). lia.
  - apply (chunk_list_nonpositive (-2) ["a"; "b"; "c"]). lia.
Defined.

(** ** The entry point of Carrier B *)

(** The constructor of Carrier B raises [ValueError] when the user name or
    the company name is empty, and otherwise stores both unchanged. *)
Theorem usps_init_requires_credentials (usps_username company_name : string) :
  USPS.__init__ usps_username company_name
  = if decide (usps_username = "" ∨ company_name = "")
    then Raise ValueError
    else Ok (USPS.mk_credentials usps_username company_name).
Proof.
  unfold USPS.__init__.
  destruct (String.eqb_spec usps_username "") as [->|Hu];
    destruct (String.eqb_spec company_name "") as [->|Hc];
    destruct (decide _) as [H|H]; try reflexivity; exfalso; tauto.
Qed.








(** ** Responses of Carrier A without the expected structure *)

Lemma py_get_raises x k e : py_get x k = Raise e → e = AttributeError.
Proof. destruct x; cbn; congruence. Qed.

Lemma ups_select_missing_structure overall_activity resp :
  raises (package_data_of resp) ∨ package_data_of resp = Ok JNull →
  UPS.select_activity overall_activity resp = Raise AttributeError.
Proof.
  unfold package_data_of, UPS.select_activity. intros H.
  destruct (py_get resp "TrackResponse") as [track_response|e] eqn:E1;
    [|rewrite (py_get_raises _ _ _ E1); reflexivity].
  rewrite !bind_Ok_l in *.
  destruct (py_get track_response "Shipment") as [shipment|e] eqn:E2;
    [|rewrite (py_get_raises _ _ _ E2); reflexivity].
  rewrite !bind_Ok_l in *.
  destruct (py_get shipment "Package") as [package_data|e] eqn:E3;
    [|rewrite (py_get_raises _ _ _ E3); reflexivity].
  rewrite bind_Ok_l.
  destruct H as [[e H]|H]; [discriminate H|]. injection H as ->.
  destruct (py_get shipment "InquiryNumber") as [inquiry|e] eqn:E4;
    [|rewrite (py_get_raises _ _ _ E4); reflexivity].
  rewrite bind_Ok_l.
  destruct (py_get inquiry "Value") as [number|e] eqn:E5;
    [|rewrite (py_get_raises _ _ _ E5); reflexivity].
  reflexivity.
Qed.

(** A response of Carrier A that is no dict, or in which [TrackResponse],
    [Shipment] or [Package] is missing, is not skipped: [_simplify_ups]
    raises [AttributeError] and the records of the responses before it are
    lost. *)
Theorem ups_simplify_missing_structure
    (pre post : list json) (st : option json * list (gmap string value))
    (resp : json) :
  for_each UPS.simplify_step (None, []) pre = Ok st →
  raises (package_data_of resp) ∨ package_data_of resp = Ok JNull →
  UPS._simplify_ups (pre ++ resp :: post) = Raise AttributeError.
Proof.
  intros Hpre Hmissing. unfold UPS._simplify_ups.
  rewrite (for_each_raise _ _ st pre resp post AttributeError Hpre);
    [reflexivity|].
  unfold UPS.simplify_step.
  rewrite (ups_select_missing_structure st.1 resp Hmissing). reflexivity.
Qed.

Lemma ups_simplify_missing_structure_witness :
  UPS._simplify_ups
    [Samples.ups_response "1Z0000000000000001"
       (Samples.package (Samples.activity "D" "20240101" "093000"));
     JDict [("TrackResponse",
              JDict [("Response",
                       JDict [("ResponseStatus",
                                JDict [("Code", JStr "1")])])])]]
  = Raise AttributeError.
Proof.
  pose (first :=
          Samples.ups_response "1Z0000000000000001"
            (Samples.package (Samples.activity "D" "20240101" "093000"))).
  pose (st := try_except (for_each UPS.simplify_step (None, []) [first])
                (None, [])).
  apply (ups_simplify_missing_structure [first] [] st).
  - apply succeeded_eq. vm_compute. reflexivity.
  - left. eexists. vm_compute. reflexivity.
Defined.

(** A single package of Carrier A whose [Activity] is an empty list has no
    first element: [_simplify_ups] raises [IndexError]. *)
Theorem ups_simplify_empty_activity
    (pre post : list json) (st : option json * list (gmap string value))
    (resp tracking_number : json) (d : list (string * json)) :
  for_each UPS.simplify_step (None, []) pre = Ok st →
  inquiry_value resp = Ok tracking_number →
  package_data_of resp = Ok (JDict d) →
  py_get (JDict d) "Activity" = Ok (JList []) →
  UPS._simplify_ups (pre ++ resp :: post) = Raise IndexError.
Proof.
  intros Hpre Hnumber Hpackage Hactivity. unfold UPS._simplify_ups.
  rewrite (for_each_raise _ _ st pre resp post IndexError Hpre);
    [reflexivity|].
  unfold inquiry_value in Hnumber. do 3 bind_inv Hnumber.
  unfold package_data_of in Hpackage. do 2 bind_inv Hpackage.
  rewrite Ha in Ha2. injection Ha2 as <-.
  rewrite Ha0 in Ha3. injection Ha3 as <-.
  unfold UPS.simplify_step, UPS.select_activity.
  rewrite Ha, bind_Ok_l, Ha0, bind_Ok_l, Hpackage, bind_Ok_l.
  rewrite Ha1, bind_Ok_l, Hnumber, bind_Ok_l.
  unfold UPS.resolve_overall. rewrite Hactivity. reflexivity.
Qed.

Lemma ups_simplify_empty_activity_witness :
  UPS._simplify_ups
    [Samples.ups_response "1Z0000000000000001"
       (JDict [("TrackingNumber", JStr "1Z0000000000000001");
               ("Activity", JList [])])]
  = Raise IndexError.
Proof.
  apply (ups_simplify_empty_activity [] [] (None, [])
           (Samples.ups_response "1Z0000000000000001"
              (JDict [("TrackingNumber", JStr "1Z0000000000000001");
                      ("Activity", JList [])]))
           (JStr "1Z0000000000000001")
           [("TrackingNumber", JStr "1Z0000000000000001");
            ("Activity", JList [])]); reflexivity.
Defined.
